(** * brap-brain: the training supervisor of [src/train.py]

    A shallow embedding of [TrainingMetadata] (save / load), of the epoch
    loop [do_training] and of the operator console [do_management], with
    the properties of the training supervisor stated over it.

    Conventions.
    - Python [int] is [Z]; a Python [str] read from the console is a list
      of Unicode code points ([N]), since [str.strip] classifies code
      points; JSON keys, JSON strings and path strings are [string].
    - The collaborators that are not part of [train.py] (the [aitextgen]
      model, the disk, the operator) are described by an explicit
      environment: for every epoch, what the executor and the disk do and
      what the operator types while the epoch is executed.
    - Exceptions and the mutable state of [do_training] are threaded by a
      small state-and-exception monad [M]. *)

From Stdlib Require Import ZArith NArith List Ascii String Bool Lia.
Import ListNotations.
Local Open Scope Z_scope.
Set Warnings "-register-all".

(** * The model *)

(** ** Python strings read from the console *)

Module Str.

(** A [str] is a sequence of code points. *)
Definition str := list N.

(** The code points of a literal. *)
Definition lit (s : string) : str :=
  map N_of_ascii (list_ascii_of_string s).

Fixpoint eqb (a b : str) : bool :=
  match a, b with
  | [], [] => true
  | x :: a', y :: b' => N.eqb x y && eqb a' b'
  | _, _ => false
  end.

(** The code points that [str.strip()] (no argument) removes: the ones for
    which [str.isspace] holds. *)
Definition is_space (c : N) : bool :=
  ((9 <=? c) && (c <=? 13) || (28 <=? c) && (c <=? 32)
   || (c =? 133) || (c =? 160) || (c =? 5760)
   || (8192 <=? c) && (c <=? 8202)
   || (c =? 8232) || (c =? 8233) || (c =? 8239) || (c =? 8287)
   || (c =? 12288))%N.

Fixpoint lstrip (s : str) : str :=
  match s with
  | [] => []
  | c :: s' => if is_space c then lstrip s' else s
  end.

Definition rstrip (s : str) : str := rev (lstrip (rev s)).

(** [s.strip()] *)
Definition strip (s : str) : str := rstrip (lstrip s).

End Str.

(** ** JSON documents and the disk *)

(** What [json.load] returns and [json.dump] accepts.  An object is the
    parsed [dict]: its keys are distinct. *)
Inductive JSON : Type :=
| JNull
| JBool (b : bool)
| JNum (z : Z)
| JStr (s : string)
| JArr (items : list JSON)
| JObj (members : list (string * JSON)).

(** [data[key]] on a parsed object. *)
Fixpoint member (key : string) (members : list (string * JSON)) : option JSON :=
  match members with
  | [] => None
  | (k, v) :: rest => if String.eqb k key then Some v else member key rest
  end.

(** The places of the model's output directory that [do_training] touches.
    A checkpoint directory is named [checkpoint-<iterations>]; it is
    identified by that number. *)
Inductive Location : Type :=
| TrainingMetaPath                 (* <output_dir>/training-metadata.json *)
| CheckpointDir (iters : Z)        (* <output_dir>/checkpoint-<iters> *)
| CheckpointMetaPath (iters : Z).  (* <output_dir>/checkpoint-<iters>/training-metadata.json *)

Definition Location_eqb (a b : Location) : bool :=
  match a, b with
  | TrainingMetaPath, TrainingMetaPath => true
  | CheckpointDir i, CheckpointDir j => i =? j
  | CheckpointMetaPath i, CheckpointMetaPath j => i =? j
  | _, _ => false
  end.

(** What a reader finds at a location. *)
Inductive Content : Type :=
| Absent                (* nothing there: [os.path.exists] is False *)
| Partial               (* a file that is not a complete JSON document; in
                           particular the file that [open(path, 'w')] has
                           just truncated *)
| Json (doc : JSON)     (* a complete JSON document *)
| ModelDir.             (* a model snapshot written by [model.save] *)

Definition Disk := Location -> Content.

Definition disk_put (l : Location) (c : Content) (d : Disk) : Disk :=
  fun l' => if Location_eqb l l' then c else d l'.

Definition empty_disk : Disk := fun _ => Absent.

(** ** Exceptions *)

Inductive Exn : Type :=
| JSONDecodeError      (* [json.load] on a file that is not a JSON document *)
| KeyError (key : string)
| TypeError            (* the loaded document has not the expected shape *)
| OSError              (* the disk refuses an [open] or a write *)
| ExecutorError.       (* [model.train] fails *)

(** ** [lib_path.LocalPath] *)

(** [lib_path] is not part of [train.py]; [LocalPath] is taken as a
    parameter: a type with the constructor from a project-relative path
    string, [get_project_relative_path], and the comparison [!=] that
    [do_training] applies to two of them. *)
Class LocalPathOps (P : Type) : Type := {
  LocalPath : string -> P;
  get_project_relative_path : P -> string;
  path_ne : P -> P -> bool
}.

(** A [LocalPath] that is nothing but its project-relative path. *)
#[export] Instance relative_paths : LocalPathOps string := {
  LocalPath := fun s => s;
  get_project_relative_path := fun p => p;
  path_ne := fun p q => negb (String.eqb p q)
}.

(** How a piece of code ends: it returns a value, it raises, or the
    description of the environment ends while it is still running. *)
Inductive Result (A : Type) : Type :=
| Ok (a : A)
| Raise (e : Exn)
| Running.

Arguments Ok {A} a.
Arguments Raise {A} e.
Arguments Running {A}.

(** ** The data model *)

Section Supervisor.

Context {P : Type} {paths : LocalPathOps P}.

(** [class TrainingMetadata] *)
Record TrainingMetadata : Type := mkTrainingMetadata {
  training_iterations : Z;
  tokenizer_index : P
}.

(** The dictionary that [TrainingMetadata.save] hands to [json.dump]. *)
Definition to_json (m : TrainingMetadata) : JSON :=
  JObj [ ("training_iterations"%string, JNum (training_iterations m));
         ("tokenizer_index"%string, JStr (get_project_relative_path (tokenizer_index m))) ].

(** The arguments of [train] that [do_training] reads.  [parse_args]
    declares the numeric ones with [type=int] and nothing else: every
    integer is accepted. *)
Record Config : Type := mkConfig {
  arg_tokenizer_index : P;
  target_epochs : Z;
  train_epoch_steps : Z;
  checkpoint_every_epochs : Z
}.

Inductive Level : Type := Info | Warn | Error.

(** The messages of [train.py], by the line that logs them. *)
Inductive Message : Type :=
| SavingModelInto                                   (* line 240 *)
| TokenizerMismatch (stored current : P)            (* line 253 *)
| EpochCompleted (epochs steps total : Z)           (* line 280 *)
| CheckpointSaved (iters : Z)                       (* line 290 *)
| FailedToTrain (e : Exn)                           (* line 294 *)
| GracefullyShutDown                                (* line 297 *)
| Summary (epochs steps total : Z)                  (* line 301 *)
| ModelSavedInto                                    (* line 302 *)
| TypeQuitToStop                                    (* line 319 *)
| AttemptingShutdown                                (* line 326 *)
| HelpHeader                                        (* line 330 *)
| HelpQuit                                          (* line 331 *)
| Unrecognized (user_input : Str.str).              (* line 333 *)

(** What the outside world can observe of a run, in the order it happens. *)
Inductive Event : Type :=
| Log (lvl : Level) (m : Message)
| Train                                   (* a call of [model.train] *)
| Stored (l : Location) (c : Content).    (* the disk now holds [c] at [l] *)

(** The thread that runs [do_management]. *)
Inductive Console : Type :=
| Reading       (* in its [while True] loop *)
| Returned      (* left the loop through [return] *)
| Died.         (* [input()] raised at the end of the input *)

(** The state of a run: what the two threads share (disk, log, the
    [threading.Event], the console thread) and the local variables of
    [do_training].  [trace] has the newest event first. *)
Record State : Type := mkState {
  disk : Disk;
  trace : list Event;
  should_graceful_exit : bool;
  console : Console;
  training_meta : TrainingMetadata;
  num_epochs : Z;
  num_epochs_since_checkpoint : Z
}.

Definition with_disk (d : Disk) (s : State) : State :=
  mkState d (trace s) (should_graceful_exit s) (console s)
          (training_meta s) (num_epochs s) (num_epochs_since_checkpoint s).

Definition with_trace (t : list Event) (s : State) : State :=
  mkState (disk s) t (should_graceful_exit s) (console s)
          (training_meta s) (num_epochs s) (num_epochs_since_checkpoint s).

Definition with_signal (b : bool) (s : State) : State :=
  mkState (disk s) (trace s) b (console s)
          (training_meta s) (num_epochs s) (num_epochs_since_checkpoint s).

Definition with_console (c : Console) (s : State) : State :=
  mkState (disk s) (trace s) (should_graceful_exit s) c
          (training_meta s) (num_epochs s) (num_epochs_since_checkpoint s).

Definition with_training_meta (m : TrainingMetadata) (s : State) : State :=
  mkState (disk s) (trace s) (should_graceful_exit s) (console s)
          m (num_epochs s) (num_epochs_since_checkpoint s).

Definition with_num_epochs (n : Z) (s : State) : State :=
  mkState (disk s) (trace s) (should_graceful_exit s) (console s)
          (training_meta s) n (num_epochs_since_checkpoint s).

Definition with_since_checkpoint (n : Z) (s : State) : State :=
  mkState (disk s) (trace s) (should_graceful_exit s) (console s)
          (training_meta s) (num_epochs s) n.

Definition emit (e : Event) (s : State) : State := with_trace (e :: trace s) s.

(** A write reaches the disk and is observable from then on. *)
Definition store (l : Location) (c : Content) (s : State) : State :=
  emit (Stored l c) (with_disk (disk_put l c (disk s)) s).

(** ** The monad of [do_training] *)

Definition M (A : Type) : Type := State -> Result A * State.

Definition ret {A} (a : A) : M A := fun s => (Ok a, s).

Definition bind {A B} (m : M A) (k : A -> M B) : M B :=
  fun s =>
    match m s with
    | (Ok a, s') => k a s'
    | (Raise e, s') => (Raise e, s')
    | (Running, s') => (Running, s')
    end.

Definition raise {A} (e : Exn) : M A := fun s => (Raise e, s).

Definition get : M State := fun s => (Ok s, s).

Definition modify (f : State -> State) : M unit := fun s => (Ok tt, f s).

(** [try: body except Exception as e: handler(e)] *)
Definition try_except (body : M unit) (handler : Exn -> M unit) : M unit :=
  fun s =>
    match body s with
    | (Raise e, s') => handler e s'
    | r => r
    end.

(** [try: body finally: final]: [final] runs however [body] ends; an
    exception of [final] replaces the outcome of [body]. *)
Definition try_finally (body : M unit) (final : M unit) : M unit :=
  fun s =>
    match body s with
    | (Running, s') => (Running, s')
    | (r, s') =>
        match final s' with
        | (Ok _, s'') => (r, s'')
        | r' => r'
        end
    end.

Notation "x <- c1 ;; c2" := (bind c1 (fun x => c2))
  (at level 61, c1 at next level, right associativity).
Notation "c1 ;; c2" := (bind c1 (fun _ => c2))
  (at level 61, right associativity).

(** ** The environment of a run *)

(** What the disk does to one call of [TrainingMetadata.save]. *)
Inductive SaveFault : Type :=
| NoFault
| OpenFails      (* [open(path, 'w')] raises *)
| DumpFails.     (* the file is opened, a write of [json.dump] raises *)

(** What [input()] does in the console. *)
Inductive ConsoleInput : Type :=
| Line (text : Str.str)
| EndOfInput.

(** What happens around the worker while it executes one epoch. *)
Record Epoch : Type := mkEpoch {
  operator_input : list ConsoleInput;   (* read by the console meanwhile *)
  train_fault : option Exn;             (* [model.train] raises *)
  progress_save_fault : SaveFault;      (* the save of line 282 *)
  model_save_fault : option Exn;        (* [model.save] of line 287 raises *)
  checkpoint_save_fault : SaveFault     (* the save of line 289 *)
}.

(** ** [TrainingMetadata.save] and [TrainingMetadata.load] *)

(** [open(path, 'w')]: the file is created or truncated. *)
Definition open_w (fails : bool) (l : Location) : M unit :=
  if fails then raise OSError else modify (store l Partial).

(** [json.dump(doc, out_f, indent=4)] up to the end of the [with] block:
    the document is complete once the file is closed. *)
Definition json_dump (fails : bool) (doc : JSON) (l : Location) : M unit :=
  if fails then raise OSError else modify (store l (Json doc)).

Definition save (f : SaveFault) (self : TrainingMetadata) (out_file : Location) : M unit :=
  open_w (match f with OpenFails => true | _ => false end) out_file ;;
  json_dump (match f with DumpFails => true | _ => false end) (to_json self) out_file.

(** [load] trusts the types of the two values.  The fields being declared
    [int] and [LocalPath], a document with values of other types is
    outside this model and ends in [TypeError] here. *)
Definition load (in_file : Location) : M TrainingMetadata :=
  s <- get ;;
  match disk s in_file with
  | Absent | ModelDir => raise OSError
  | Partial => raise JSONDecodeError
  | Json (JObj data) =>
      match member "training_iterations" data with
      | None => raise (KeyError "training_iterations")
      | Some iterations =>
          match member "tokenizer_index" data with
          | None => raise (KeyError "tokenizer_index")
          | Some index =>
              match iterations, index with
              | JNum n, JStr p => ret (mkTrainingMetadata n (LocalPath p))
              | _, _ => raise TypeError
              end
          end
      end
  | Json _ => raise TypeError
  end.

(** ** [do_management] *)

(** One turn of the [while True] loop of [do_management]. *)
Definition console_turn (i : ConsoleInput) (s : State) : State :=
  match i with
  | EndOfInput => with_console Died s
  | Line text =>
      let user_input := Str.strip text in
      if Str.eqb user_input (Str.lit "quit") then
        with_console Returned
          (with_signal true (emit (Log Info AttemptingShutdown) s))
      else if Str.eqb user_input (Str.lit "help") then
        emit (Log Info HelpQuit) (emit (Log Info HelpHeader) s)
      else
        emit (Log Info (Unrecognized user_input)) s
  end.

(** The console thread reading the given inputs, from wherever it is. *)
Fixpoint console_reads (inputs : list ConsoleInput) (s : State) : State :=
  match inputs with
  | [] => s
  | i :: rest =>
      match console s with
      | Reading => console_reads rest (console_turn i s)
      | _ => s
      end
  end.

(** [do_management] from its first line; it also starts the training
    thread, whose steps the environment interleaves with the console's. *)
Definition do_management (inputs : list ConsoleInput) (s : State) : State :=
  console_reads inputs (emit (Log Info TypeQuitToStop) s).

(** ** [do_training] *)

Definition log (lvl : Level) (m : Message) : M unit := modify (emit (Log lvl m)).

(** [model.train(...)]: the executor runs [train_epoch_steps] steps while
    the console goes on reading. *)
Definition model_train (e : Epoch) : M unit :=
  modify (emit Train) ;;
  modify (console_reads (operator_input e)) ;;
  match train_fault e with
  | Some x => raise x
  | None => ret tt
  end.

(** [model.save(checkpoint_dir)] *)
Definition model_save (e : Epoch) (checkpoint_dir : Location) : M unit :=
  match model_save_fault e with
  | Some x => raise x
  | None => modify (store checkpoint_dir ModelDir)
  end.

(** The pure decision of line 285. *)
Definition shouldCheckpoint (epochs_since_checkpoint cadence : Z) : bool :=
  epochs_since_checkpoint >=? cadence.

(** The condition of the [while] of line 264. *)
Definition loop_condition (cfg : Config) (s : State) : bool :=
  negb (should_graceful_exit s)
  && ((num_epochs s <? target_epochs cfg) || (target_epochs cfg <? 0)).

(** Lines 266-292: the body of the loop. *)
Definition epoch_body (cfg : Config) (e : Epoch) : M unit :=
  model_train e ;;
  modify (fun s => with_num_epochs (num_epochs s + 1) s) ;;
  modify (fun s => with_since_checkpoint (num_epochs_since_checkpoint s + 1) s) ;;
  modify (fun s =>
    with_training_meta
      (mkTrainingMetadata
         (training_iterations (training_meta s) + train_epoch_steps cfg)
         (tokenizer_index (training_meta s))) s) ;;
  s <- get ;;
  log Info (EpochCompleted (num_epochs s) (train_epoch_steps cfg)
                           (training_iterations (training_meta s))) ;;
  save (progress_save_fault e) (training_meta s) TrainingMetaPath ;;
  if shouldCheckpoint (num_epochs_since_checkpoint s) (checkpoint_every_epochs cfg) then
    let iters := training_iterations (training_meta s) in
    model_save e (CheckpointDir iters) ;;
    save (checkpoint_save_fault e) (training_meta s) (CheckpointMetaPath iters) ;;
    log Info (CheckpointSaved iters) ;;
    modify (with_since_checkpoint 0)
  else ret tt.

(** Lines 264-292.  The loop consumes one element of [epochs] per turn; it
    is still [Running] when it wants a turn that [epochs] does not
    describe. *)
Fixpoint while_loop (cfg : Config) (epochs : list Epoch) (s : State)
  : Result unit * State :=
  if loop_condition cfg s then
    match epochs with
    | [] => (Running, s)
    | e :: rest => (epoch_body cfg e ;; while_loop cfg rest) s
    end
  else (Ok tt, s).

(** Lines 244-254: the metadata of a fresh run, or the stored one with the
    tokenizer index of the invocation. *)
Definition init_training_meta (cfg : Config) : M unit :=
  modify (with_training_meta (mkTrainingMetadata 0 (arg_tokenizer_index cfg))) ;;
  s <- get ;;
  match disk s TrainingMetaPath with
  | Absent => ret tt
  | _ =>
      m <- load TrainingMetaPath ;;
      modify (with_training_meta m) ;;
      if path_ne (tokenizer_index m) (arg_tokenizer_index cfg) then
        log Warn (TokenizerMismatch (tokenizer_index m) (arg_tokenizer_index cfg)) ;;
        modify (with_training_meta
                  (mkTrainingMetadata (training_iterations m) (arg_tokenizer_index cfg)))
      else ret tt
  end.

(** Lines 295-302: the [finally] block. *)
Definition terminal_handling (cfg : Config) (exit_save_fault : SaveFault) : M unit :=
  s <- get ;;
  (if should_graceful_exit s then log Info GracefullyShutDown else ret tt) ;;
  save exit_save_fault (training_meta s) TrainingMetaPath ;;
  log Info (Summary (num_epochs s) (train_epoch_steps cfg * num_epochs s)
                    (training_iterations (training_meta s))) ;;
  log Info ModelSavedInto.

(** Lines 258-302. *)
Definition training_block (cfg : Config) (epochs : list Epoch)
                          (exit_save_fault : SaveFault) : M unit :=
  modify (with_num_epochs 0) ;;
  try_finally
    (try_except
       (modify (with_since_checkpoint 0) ;; while_loop cfg epochs)
       (fun e => log Error (FailedToTrain e)))
    (terminal_handling cfg exit_save_fault).

(** The whole of [do_training]. *)
Definition do_training (cfg : Config) (epochs : list Epoch)
                       (exit_save_fault : SaveFault) : M unit :=
  log Info SavingModelInto ;;
  init_training_meta cfg ;;
  training_block cfg epochs exit_save_fault.

(** The state in which the two threads start. *)
Definition initial_state (d : Disk) (cfg : Config) : State :=
  mkState d [] false Reading (mkTrainingMetadata 0 (arg_tokenizer_index cfg)) 0 0.

(** * What is observed of a run *)

(** ** Observations on a trace *)

(** The number of epochs that were started. *)
Fixpoint train_calls (t : list Event) : nat :=
  match t with
  | [] => O
  | Train :: t' => S (train_calls t')
  | _ :: t' => train_calls t'
  end.

(** The number of the epoch reported last. *)
Fixpoint last_epoch (t : list Event) : Z :=
  match t with
  | [] => 0
  | Log _ (EpochCompleted n _ _) :: _ => n
  | _ :: t' => last_epoch t'
  end.

(** The checkpoints that were produced, newest first: for every model
    snapshot, the epoch in which it was taken and the number that names
    its directory. *)
Fixpoint checkpoints (t : list Event) : list (Z * Z) :=
  match t with
  | [] => []
  | Stored (CheckpointDir iters) ModelDir :: t' =>
      (last_epoch t', iters) :: checkpoints t'
  | _ :: t' => checkpoints t'
  end.

Definition is_warning (e : Event) : bool :=
  match e with
  | Log Warn _ => true
  | _ => false
  end.

(** The events that come from the console thread. *)
Definition from_console (e : Event) : Prop :=
  match e with
  | Log Info AttemptingShutdown | Log Info HelpHeader | Log Info HelpQuit
  | Log Info (Unrecognized _) => True
  | _ => False
  end.

(** The input makes the console set the shutdown signal. *)
Definition asks_to_quit (i : ConsoleInput) : bool :=
  match i with
  | Line text => Str.eqb (Str.strip text) (Str.lit "quit")
  | EndOfInput => false
  end.

(** How the spec names the way a run ended (section 4.4), read off what
    [do_training] reports. *)
Inductive Phase : Type := InLoop | Stopping | Completed | Failed.

Fixpoint failure_logged (t : list Event) : bool :=
  match t with
  | [] => false
  | Log _ (FailedToTrain _) :: _ => true
  | _ :: t' => failure_logged t'
  end.

Definition phase (r : Result unit * State) : Phase :=
  match fst r with
  | Running => InLoop
  | _ =>
      if failure_logged (trace (snd r)) then Failed
      else if should_graceful_exit (snd r) then Stopping
      else Completed
  end.

(** ** States along a run *)

(** The state in which [model.train] ends: the call is on the trace and
    the console has read what the operator typed meanwhile. *)
Definition after_train (e : Epoch) (s : State) : State :=
  console_reads (operator_input e) (emit Train s).

(** ** The checkpoint cadence *)

(** The epochs [n, n-1, ..., 1]. *)
Definition countdown (n : Z) : list Z :=
  map Z.of_nat (rev (seq 1 (Z.to_nat n))).

(** The value of the counter of line 261 after [n] epochs, and whether
    epoch [n] ends with a checkpoint, for a cadence of any sign. *)
Definition since_of (cadence n : Z) : Z :=
  if 0 <? cadence then n mod cadence else 0.

Definition due (cadence n : Z) : bool :=
  if 0 <? cadence then n mod cadence =? 0 else true.

(** No write of the epoch fails. *)
Definition no_write_fault (e : Epoch) : Prop :=
  progress_save_fault e = NoFault /\
  model_save_fault e = None /\
  checkpoint_save_fault e = NoFault.

(** Nothing fails in the epoch and the operator does not ask to quit. *)
Definition quiet (e : Epoch) : Prop :=
  train_fault e = None /\ no_write_fault e /\
  forallb (fun i => negb (asks_to_quit i)) (operator_input e) = true.

Definition quiet_epoch : Epoch := mkEpoch [] None NoFault None NoFault.

(** What holds at every check of the loop condition in a run that started
    with [base] iterations on record. *)
Definition cadence_invariant (cfg : Config) (base : Z) (s : State) : Prop :=
  0 <= num_epochs s /\
  num_epochs_since_checkpoint s =
    since_of (checkpoint_every_epochs cfg) (num_epochs s) /\
  training_iterations (training_meta s) =
    base + num_epochs s * train_epoch_steps cfg /\
  checkpoints (trace s) =
    map (fun n => (n, base + n * train_epoch_steps cfg))
        (filter (due (checkpoint_every_epochs cfg)) (countdown (num_epochs s))).

(** The state that the [finally] block leaves on a writable disk. *)
Definition after_terminal_handling (cfg : Config) (s : State) : State :=
  let s1 := if should_graceful_exit s then emit (Log Info GracefullyShutDown) s else s in
  emit (Log Info ModelSavedInto)
    (emit (Log Info (Summary (num_epochs s) (train_epoch_steps cfg * num_epochs s)
                             (training_iterations (training_meta s))))
       (store TrainingMetaPath (Json (to_json (training_meta s)))
          (store TrainingMetaPath Partial s1))).

(** The state in which the loop is entered: both counters at 0 (lines 258
    and 261). *)
Definition loop_start (s : State) : State :=
  with_since_checkpoint 0 (with_num_epochs 0 s).

(** The state at the first check of the loop condition when there is no
    progress file. *)
Definition fresh_start (d : Disk) (cfg : Config) : State :=
  loop_start
    (with_training_meta (mkTrainingMetadata 0 (arg_tokenizer_index cfg))
       (emit (Log Info SavingModelInto) (initial_state d cfg))).

(** The events that a piece of code added to the trace. *)
Definition new_events (before after : State) : list Event :=
  firstn (List.length (trace after) - List.length (trace before)) (trace after).

(** The reading of C7: while [save] runs, whatever is stored at the
    location is the complete new document. *)
Definition save_is_atomic (m : TrainingMetadata) (l : Location) (s : State) : Prop :=
  forall c, In (Stored l c) (new_events s (snd (save NoFault m l s))) ->
            c = Json (to_json m).

(** ** Progress files that cannot be loaded *)

(** The exception that [load] raises on what it finds, when it raises
    whatever the types of the values: [open] on a directory, [json.load]
    on an incomplete file, a subscript on a document that is not an
    object, a missing key (the first of the two that is missing). *)
Definition unreadable (c : Content) (x : Exn) : Prop :=
  match c with
  | Absent => False
  | ModelDir => x = OSError
  | Partial => x = JSONDecodeError
  | Json (JObj data) =>
      (member "training_iterations" data = None /\
       x = KeyError "training_iterations") \/
      (member "training_iterations" data <> None /\
       member "tokenizer_index" data = None /\
       x = KeyError "tokenizer_index")
  | Json _ => x = TypeError
  end.

(** ** The operator console *)

(** A string that neither starts nor ends with whitespace. *)
Definition trimmed (t : Str.str) : Prop :=
  (forall c rest, t = c :: rest -> Str.is_space c = false) /\
  (forall c init, t = init ++ [c] -> Str.is_space c = false).

Definition blank (t : Str.str) : Prop := Forall (fun c => Str.is_space c = true) t.

End Supervisor.

(** ** Concrete runs *)

Module Example.

Definition tok : string := "training-data/tokenizer-index.json".

(** The operator types [quit] between blanks while the epoch runs. *)
Definition quit_epoch : Epoch :=
  mkEpoch [Line (Str.lit "  quit  ")] None NoFault None NoFault.

(** The executor raises. *)
Definition failing_executor : Epoch :=
  mkEpoch [] (Some ExecutorError) NoFault None NoFault.

(** [model.save] raises an I/O error. *)
Definition failing_snapshot : Epoch :=
  mkEpoch [] None NoFault (Some OSError) NoFault.

(** A run without a limit of epochs, checkpoint every 5. *)
Definition unbounded : Config := mkConfig tok (-1) 100 5.

(** Three epochs, a checkpoint after each. *)
Definition three_epochs : Config := mkConfig tok 3 100 1.

(** Two epochs with a cadence of 0. *)
Definition cadence_zero : Config := mkConfig tok 2 100 0.

(** Seven epochs, checkpoint every 3. *)
Definition seven_epochs : Config := mkConfig tok 7 100 3.

(** A progress file recorded with another tokenizer. *)
Definition stale_disk : Disk :=
  disk_put TrainingMetaPath
    (Json (JObj [("training_iterations"%string, JNum 300);
                 ("tokenizer_index"%string, JStr "old/tokenizer-index.json")]))
    empty_disk.

(** A progress file that was being written when the process died. *)
Definition incomplete_disk : Disk := disk_put TrainingMetaPath Partial empty_disk.

(** A progress file without its iteration count. *)
Definition keyless_disk : Disk :=
  disk_put TrainingMetaPath
    (Json (JObj [("tokenizer_index"%string, JStr "training-data/tokenizer-index.json")]))
    empty_disk.

(** The write of the progress file is interrupted. *)
Definition failing_progress_save : Epoch :=
  mkEpoch [] None DumpFails None NoFault.

End Example.

Import Example.

(** * Properties *)

Section Properties.

Context {P : Type} {paths : LocalPathOps P}.

Implicit Types (s si before after : @State P) (cfg : @Config P).
Implicit Types (m : @TrainingMetadata P) (logs evs t : list (@Event P)).

(** ** The console: basic facts *)

Lemma console_reads_frame inputs s :
  disk (console_reads inputs s) = disk s /\
  training_meta (console_reads inputs s) = training_meta s /\
  num_epochs (console_reads inputs s) = num_epochs s /\
  num_epochs_since_checkpoint (console_reads inputs s) = num_epochs_since_checkpoint s.
Proof.
  revert s; induction inputs as [|i rest IH]; intros s; simpl; auto.
  destruct (console s); auto.
  destruct (IH (console_turn i s)) as (Hd & Hm & Hn & Hc).
  rewrite Hd, Hm, Hn, Hc.
  destruct i as [text|]; simpl; auto.
  destruct (Str.eqb _ _); simpl; auto.
  destruct (Str.eqb _ _); simpl; auto.
Qed.

Lemma console_reads_trace inputs s :
  exists logs, trace (console_reads inputs s) = logs ++ trace s /\
               Forall from_console logs.
Proof.
  revert s; induction inputs as [|i rest IH]; intros s; simpl.
  - exists []; auto.
  - destruct (console s); try (exists []; auto; fail).
    destruct (IH (console_turn i s)) as (logs & Ht & Hl).
    rewrite Ht.
    destruct i as [text|]; simpl.
    + destruct (Str.eqb _ _); simpl.
      * exists (logs ++ [Log Info AttemptingShutdown]).
        rewrite <- app_assoc; split; auto.
        apply Forall_app; split; auto. repeat constructor.
      * destruct (Str.eqb _ _); simpl.
        -- exists (logs ++ [Log Info HelpQuit; Log Info HelpHeader]).
           rewrite <- app_assoc; split; auto.
           apply Forall_app; split; auto. repeat constructor.
        -- exists (logs ++ [Log Info (Unrecognized (Str.strip text))]).
           rewrite <- app_assoc; split; auto.
           apply Forall_app; split; auto. repeat constructor.
    + exists logs; auto.
Qed.

(** The signal is only ever set: the console has no way to clear it. *)
Lemma console_reads_signal_kept inputs s :
  should_graceful_exit s = true ->
  should_graceful_exit (console_reads inputs s) = true.
Proof.
  revert s; induction inputs as [|i rest IH]; intros s Hs; simpl; auto.
  destruct (console s); auto.
  apply IH. destruct i as [text|]; simpl; auto.
  destruct (Str.eqb _ _); simpl; auto.
  destruct (Str.eqb _ _); simpl; auto.
Qed.

(** What the console does depends on the thread and the signal only. *)
Lemma console_reads_signal_ext inputs s s' :
  console s = console s' ->
  should_graceful_exit s = should_graceful_exit s' ->
  should_graceful_exit (console_reads inputs s) =
  should_graceful_exit (console_reads inputs s') /\
  console (console_reads inputs s) = console (console_reads inputs s').
Proof.
  revert s s'; induction inputs as [|i rest IH]; intros s s' Hc Hs; simpl; auto.
  rewrite <- Hc. destruct (console s) eqn:E; try (split; congruence).
  apply IH; destruct i as [text|]; simpl; auto;
    destruct (Str.eqb _ _); simpl; try congruence;
    destruct (Str.eqb _ _); simpl; congruence.
Qed.

Lemma console_reads_no_quit inputs s :
  forallb (fun i => negb (asks_to_quit i)) inputs = true ->
  should_graceful_exit (console_reads inputs s) = should_graceful_exit s.
Proof.
  revert s; induction inputs as [|i rest IH]; intros s Hq; simpl in *; auto.
  apply andb_true_iff in Hq as [Hi Hq].
  destruct (console s); auto.
  rewrite (IH _ Hq).
  destruct i as [text|]; simpl in *; auto.
  destruct (Str.eqb _ _); simpl in *; try discriminate.
  destruct (Str.eqb _ _); simpl; auto.
Qed.

Lemma from_console_observations logs t :
  Forall from_console logs ->
  train_calls (logs ++ t) = train_calls t /\
  last_epoch (logs ++ t) = last_epoch t /\
  checkpoints (logs ++ t) = checkpoints t /\
  failure_logged (logs ++ t) = failure_logged t.
Proof.
  induction 1 as [|ev logs Hev _ IH]; simpl; auto.
  destruct ev as [lvl m| |l c]; simpl in Hev; try contradiction.
  destruct lvl, m; simpl in Hev; try contradiction; auto.
Qed.

Lemma after_train_frame e s :
  disk (after_train e s) = disk s /\
  training_meta (after_train e s) = training_meta s /\
  num_epochs (after_train e s) = num_epochs s /\
  num_epochs_since_checkpoint (after_train e s) = num_epochs_since_checkpoint s.
Proof.
  unfold after_train.
  destruct (console_reads_frame (operator_input e) (emit Train s)) as (H1 & H2 & H3 & H4).
  rewrite H1, H2, H3, H4. simpl. auto.
Qed.

Lemma after_train_trace e s :
  exists logs, trace (after_train e s) = logs ++ Train :: trace s /\
               Forall from_console logs.
Proof.
  unfold after_train.
  destruct (console_reads_trace (operator_input e) (emit Train s)) as (logs & H1 & H2).
  exists logs. simpl in H1. auto.
Qed.

Lemma after_train_signal e s :
  should_graceful_exit (after_train e s) =
  should_graceful_exit (console_reads (operator_input e) s).
Proof.
  unfold after_train.
  apply console_reads_signal_ext; reflexivity.
Qed.

Ltac step_body :=
  unfold epoch_body, model_train, model_save, save, open_w, json_dump, log,
         bind, modify, get, ret, raise; simpl.

(** The executor raises: nothing of the epoch is counted. *)
Lemma epoch_body_train_raises cfg e s x :
  train_fault e = Some x ->
  epoch_body cfg e s = (Raise x, after_train e s).
Proof.
  intros H. step_body. rewrite H. reflexivity.
Qed.

(** What a turn that ends normally has done. *)
Lemma epoch_body_returns cfg e s s' :
  epoch_body cfg e s = (Ok tt, s') ->
  let due := shouldCheckpoint (num_epochs_since_checkpoint s + 1)
                              (checkpoint_every_epochs cfg) in
  train_fault e = None /\ progress_save_fault e = NoFault /\
  num_epochs s' = num_epochs s + 1 /\
  training_iterations (training_meta s') =
    training_iterations (training_meta s) + train_epoch_steps cfg /\
  tokenizer_index (training_meta s') = tokenizer_index (training_meta s) /\
  num_epochs_since_checkpoint s' =
    (if due then 0 else num_epochs_since_checkpoint s + 1) /\
  should_graceful_exit s' =
    should_graceful_exit (console_reads (operator_input e) s) /\
  disk s' TrainingMetaPath = Json (to_json (training_meta s')) /\
  train_calls (trace s') = S (train_calls (trace s)) /\
  last_epoch (trace s') = num_epochs s + 1 /\
  checkpoints (trace s') =
    (if due
     then (num_epochs s + 1, training_iterations (training_meta s')) :: checkpoints (trace s)
     else checkpoints (trace s)) /\
  failure_logged (trace s') = failure_logged (trace s).
Proof.
  intros H due; subst due.
  destruct (after_train_frame e s) as (Fd & Fm & Fn & Fc).
  destruct (after_train_trace e s) as (logs & Ft & Fl).
  destruct (from_console_observations logs (Train :: trace s) Fl) as (Ot & Oe & Oc & Of).
  pose proof (after_train_signal e s) as Fs.
  revert H. step_body. fold (after_train e s).
  destruct (train_fault e); [discriminate|].
  destruct (progress_save_fault e); simpl; try discriminate.
  rewrite Fc.
  destruct (shouldCheckpoint _ _) eqn:Hdue; simpl.
  - destruct (model_save_fault e); simpl; [discriminate|].
    destruct (checkpoint_save_fault e); simpl; try discriminate.
    intros H; inversion H; subst s'; clear H; simpl.
    rewrite ?Fn, ?Fm, ?Fs, ?Ft; simpl; rewrite ?Ot, ?Oe, ?Oc, ?Of; simpl.
    repeat split; reflexivity.
  - intros H; inversion H; subst s'; clear H; simpl.
    rewrite ?Fn, ?Fm, ?Fs, ?Ft; simpl; rewrite ?Ot, ?Oe, ?Oc, ?Of; simpl.
    repeat split; reflexivity.
Qed.

(** However a turn ends, the executor was called once, and the signal is
    what the console made of it meanwhile. *)
Lemma epoch_body_always cfg e s :
  fst (epoch_body cfg e s) <> Running /\
  train_calls (trace (snd (epoch_body cfg e s))) = S (train_calls (trace s)) /\
  should_graceful_exit (snd (epoch_body cfg e s)) =
    should_graceful_exit (console_reads (operator_input e) s).
Proof.
  destruct (after_train_trace e s) as (logs & Ft & Fl).
  destruct (from_console_observations logs (Train :: trace s) Fl) as (Ot & _).
  pose proof (after_train_signal e s) as Fs.
  step_body. fold (after_train e s).
  destruct (train_fault e); simpl.
  { rewrite Ft, Ot, Fs. repeat split; auto; discriminate. }
  destruct (progress_save_fault e); simpl;
    try (rewrite Ft; simpl; rewrite Ot, Fs; repeat split; auto; discriminate).
  destruct (shouldCheckpoint _ _); simpl;
    try (rewrite Ft; simpl; rewrite Ot, Fs; repeat split; auto; discriminate).
  destruct (model_save_fault e); simpl;
    try (rewrite Ft; simpl; rewrite Ot, Fs; repeat split; auto; discriminate).
  destruct (checkpoint_save_fault e); simpl;
    rewrite Ft; simpl; rewrite Ot, Fs; repeat split; auto; discriminate.
Qed.

(** When the executor returns and the progress file can be written, the
    epoch is counted and persisted, whatever the checkpoint does. *)
Lemma epoch_body_persists cfg e s :
  train_fault e = None ->
  progress_save_fault e = NoFault ->
  let s' := snd (epoch_body cfg e s) in
  num_epochs s' = num_epochs s + 1 /\
  training_iterations (training_meta s') =
    training_iterations (training_meta s) + train_epoch_steps cfg /\
  disk s' TrainingMetaPath = Json (to_json (training_meta s')) /\
  exists evs, trace s' = evs ++ trace s /\
    In (Log Info (EpochCompleted (num_epochs s') (train_epoch_steps cfg)
                                 (training_iterations (training_meta s')))) evs /\
    In (Stored TrainingMetaPath (Json (to_json (training_meta s')))) evs.
Proof.
  intros Ht Hp.
  destruct (after_train_frame e s) as (Fd & Fm & Fn & Fc).
  destruct (after_train_trace e s) as (logs & Ft & Fl).
  change (logs ++ Train :: trace s) with (logs ++ [Train] ++ trace s) in Ft.
  rewrite app_assoc in Ft.
  step_body. fold (after_train e s). rewrite Ht, Hp. simpl.
  destruct (shouldCheckpoint _ _); simpl;
    [ destruct (model_save_fault e); simpl;
      [ | destruct (checkpoint_save_fault e); simpl ] | ];
    rewrite Fn, Fm, Ft; (repeat split; auto);
    (eexists; split; [ repeat rewrite app_comm_cons; reflexivity | ]);
    simpl; auto 12.
Qed.

(** ** The loop *)

Lemma while_loop_exit cfg epochs s :
  loop_condition cfg s = false -> while_loop cfg epochs s = (Ok tt, s).
Proof. intros H. destruct epochs; simpl; rewrite H; reflexivity. Qed.

Lemma while_loop_turn cfg e rest s :
  loop_condition cfg s = true ->
  while_loop cfg (e :: rest) s =
  match epoch_body cfg e s with
  | (Ok _, s') => while_loop cfg rest s'
  | (Raise x, s') => (Raise x, s')
  | (Running, s') => (Running, s')
  end.
Proof. intros H. simpl. rewrite H. reflexivity. Qed.

Lemma while_loop_train_calls_mono cfg epochs s :
  (train_calls (trace s) <= train_calls (trace (snd (while_loop cfg epochs s))))%nat.
Proof.
  revert s; induction epochs as [|e rest IH]; intros s; simpl.
  - destruct (loop_condition cfg s); simpl; lia.
  - destruct (loop_condition cfg s); simpl; [|lia].
    destruct (epoch_body_always cfg e s) as (_ & Tc & _).
    unfold bind. destruct (epoch_body cfg e s) as [[[]|x|] s1]; simpl in *; try lia.
    specialize (IH s1). lia.
Qed.

(** A loop that is still running at the end of [pre] goes on with what
    follows. *)
Lemma while_loop_app cfg pre rest s0 s :
  while_loop cfg pre s0 = (Running, s) ->
  while_loop cfg (pre ++ rest) s0 = while_loop cfg rest s /\
  loop_condition cfg s = true /\
  num_epochs s = num_epochs s0 + Z.of_nat (List.length pre) /\
  training_iterations (training_meta s) =
    training_iterations (training_meta s0)
    + Z.of_nat (List.length pre) * train_epoch_steps cfg /\
  train_calls (trace s) = (train_calls (trace s0) + List.length pre)%nat.
Proof.
  revert s0; induction pre as [|e pre IH]; intros s0 H.
  - simpl in H. destruct (loop_condition cfg s0) eqn:C; inversion H; subst.
    simpl. repeat split; auto; lia.
  - destruct (loop_condition cfg s0) eqn:C.
    2:{ rewrite while_loop_exit in H by assumption. discriminate. }
    rewrite while_loop_turn in H by assumption.
    change ((e :: pre) ++ rest) with (e :: (pre ++ rest)).
    rewrite while_loop_turn by assumption.
    pose proof (epoch_body_always cfg e s0) as (NR & _ & _).
    destruct (epoch_body cfg e s0) as [[[]|x|] s1] eqn:B; try discriminate;
      [ | exfalso; apply NR; reflexivity ].
    destruct (epoch_body_returns _ _ _ _ B)
      as (_ & _ & Hn & Hi & _ & _ & _ & _ & Hc & _).
    destruct (IH _ H) as (E & C' & Hn' & Hi' & Hc').
    rewrite E, Hn', Hi', Hc', Hn, Hi, Hc.
    repeat split; auto; simpl List.length; lia.
Qed.

(** ** Shutdown at an epoch boundary *)

(** C1.  Let the loop have run the epochs of [pre] and be about to start
    epoch [k = length pre + 1] (so the signal is not set at that check),
    and let the console set the signal while epoch [k] is executed.  Then
    the loop ends with epoch [k]: the executor has been called [k] times
    and never again, whatever the environment offers afterwards; the
    signal is still set and stays set whatever the console reads; and,
    the executor returning and the progress file being writable, epoch
    [k] is complete: it is counted, reported, and the progress file holds
    the iteration count that includes its steps. *)
Theorem shutdown_respects_epoch_boundary cfg pre e post s0 s :
  while_loop cfg pre s0 = (Running, s) ->
  should_graceful_exit (console_reads (operator_input e) s) = true ->
  let k := S (List.length pre) in
  let r := while_loop cfg (pre ++ e :: post) s0 in
  fst r <> Running /\
  train_calls (trace (snd r)) = (train_calls (trace s0) + k)%nat /\
  (forall inputs, should_graceful_exit (console_reads inputs (snd r)) = true) /\
  (train_fault e = None -> progress_save_fault e = NoFault ->
   num_epochs (snd r) = num_epochs s0 + Z.of_nat k /\
   training_iterations (training_meta (snd r)) =
     training_iterations (training_meta s0) + Z.of_nat k * train_epoch_steps cfg /\
   disk (snd r) TrainingMetaPath = Json (to_json (training_meta (snd r))) /\
   exists evs, trace (snd r) = evs ++ trace s /\
     In (Log Info (EpochCompleted (num_epochs (snd r)) (train_epoch_steps cfg)
                     (training_iterations (training_meta (snd r))))) evs /\
     In (Stored TrainingMetaPath (Json (to_json (training_meta (snd r))))) evs).
Proof.
  intros Hpre Hquit k r.
  destruct (while_loop_app cfg pre (e :: post) s0 s Hpre) as (E & C & Hn & Hi & Hc).
  assert (R : r = (fst (epoch_body cfg e s), snd (epoch_body cfg e s))).
  { subst r. rewrite E, while_loop_turn by assumption.
    destruct (epoch_body_always cfg e s) as (NR & _ & Hs).
    destruct (epoch_body cfg e s) as [[[]|x|] s1]; simpl in *; auto.
    apply while_loop_exit. unfold loop_condition.
    rewrite Hs, Hquit. reflexivity. }
  destruct (epoch_body_always cfg e s) as (NR & Ht & Hs).
  rewrite R; cbn [fst snd]. split; [assumption|]. split.
  { rewrite Ht, Hc. subst k. lia. }
  split.
  { intros inputs. apply console_reads_signal_kept. congruence. }
  intros Htf Hpf.
  destruct (epoch_body_persists cfg e s Htf Hpf) as (Pn & Pi & Pd & Pe).
  split; [rewrite Pn, Hn; subst k; lia|].
  split; [rewrite Pi, Hi; subst k; rewrite Nat2Z.inj_succ; ring|].
  split; assumption.
Qed.

Lemma countdown_succ n : 0 <= n -> countdown (n + 1) = (n + 1) :: countdown n.
Proof.
  intros Hn. unfold countdown.
  replace (Z.to_nat (n + 1)) with (S (Z.to_nat n)) by lia.
  rewrite seq_S, rev_app_distr. simpl. f_equal. lia.
Qed.

Lemma counter_step cadence n :
  0 <= n ->
  shouldCheckpoint (since_of cadence n + 1) cadence = due cadence (n + 1) /\
  since_of cadence (n + 1) =
    (if due cadence (n + 1) then 0 else since_of cadence n + 1).
Proof.
  intros Hn. unfold shouldCheckpoint, since_of, due.
  destruct (0 <? cadence) eqn:Hc.
  - apply Z.ltb_lt in Hc.
    pose proof (Z.mod_pos_bound n cadence Hc) as Hr.
    pose proof (Z.div_mod n cadence ltac:(lia)) as Hd.
    destruct (Z.eq_dec (n mod cadence + 1) cadence) as [E|E].
    + assert (M : (n + 1) mod cadence = 0).
      { symmetry. apply (Z.mod_unique_pos _ _ (n / cadence + 1)); lia. }
      rewrite M. simpl. split; [apply Z.geb_le; lia | reflexivity].
    + assert (M : (n + 1) mod cadence = n mod cadence + 1).
      { symmetry. apply (Z.mod_unique_pos _ _ (n / cadence)); lia. }
      rewrite M.
      replace (n mod cadence + 1 =? 0) with false by (symmetry; apply Z.eqb_neq; lia).
      split; [|reflexivity].
      destruct (n mod cadence + 1 >=? cadence) eqn:G; [|reflexivity].
      apply Z.geb_le in G. lia.
  - apply Z.ltb_ge in Hc. split; [apply Z.geb_le; lia | reflexivity].
Qed.

Lemma epoch_body_keeps_invariant cfg base e s s' :
  cadence_invariant cfg base s ->
  epoch_body cfg e s = (Ok tt, s') ->
  cadence_invariant cfg base s'.
Proof.
  intros (Hn & Hs & Hi & Hc) B.
  destruct (epoch_body_returns _ _ _ _ B)
    as (_ & _ & En & Ei & _ & Es & _ & _ & _ & _ & Ec & _).
  destruct (counter_step (checkpoint_every_epochs cfg) (num_epochs s) Hn) as (D & S').
  rewrite Hs, D in Es, Ec.
  unfold cadence_invariant.
  rewrite En, Es, Ec, Ei, Hi, Hc, S', (countdown_succ _ Hn). simpl.
  destruct (due _ _); simpl; repeat split; try lia; try ring.
  do 2 f_equal. ring.
Qed.

(** Without a failing write the only exception of a turn is the
    executor's, and then the turn changes no count. *)
Lemma epoch_body_raises cfg e s x s' :
  no_write_fault e ->
  epoch_body cfg e s = (Raise x, s') ->
  train_fault e = Some x /\ s' = after_train e s.
Proof.
  intros (Hp & Hm & Hc). step_body. fold (after_train e s).
  rewrite Hp, Hm, Hc.
  destruct (train_fault e); simpl.
  - intros H; inversion H; auto.
  - destruct (shouldCheckpoint _ _); simpl; discriminate.
Qed.

Lemma after_train_keeps_invariant cfg base e s :
  cadence_invariant cfg base s -> cadence_invariant cfg base (after_train e s).
Proof.
  intros (Hn & Hs & Hi & Hc).
  destruct (after_train_frame e s) as (_ & Fm & Fn & Fc).
  destruct (after_train_trace e s) as (logs & Ft & Fl).
  destruct (from_console_observations logs (Train :: trace s) Fl) as (_ & _ & Oc & _).
  unfold cadence_invariant. rewrite Fm, Fn, Fc, Ft, Oc. simpl. auto.
Qed.

Lemma while_loop_keeps_invariant cfg base epochs s :
  Forall no_write_fault epochs ->
  cadence_invariant cfg base s ->
  cadence_invariant cfg base (snd (while_loop cfg epochs s)).
Proof.
  intros Hq; revert s; induction Hq as [|e rest He _ IH]; intros s Inv.
  - simpl. destruct (loop_condition cfg s); assumption.
  - destruct (loop_condition cfg s) eqn:C.
    2:{ rewrite while_loop_exit by assumption. assumption. }
    rewrite while_loop_turn by assumption.
    destruct (epoch_body cfg e s) as [[[]|x|] s1] eqn:B; simpl.
    + apply IH. eapply epoch_body_keeps_invariant; eassumption.
    + destruct (epoch_body_raises _ _ _ _ _ He B) as (_ & ->).
      apply after_train_keeps_invariant; assumption.
    + destruct (epoch_body_always cfg e s) as (NR & _).
      rewrite B in NR. exfalso; apply NR; reflexivity.
Qed.

Lemma filter_all {A} (l : list A) : filter (fun _ => true) l = l.
Proof. induction l as [|a l IH]; simpl; [reflexivity | f_equal; exact IH]. Qed.

Lemma in_countdown top n : 0 <= top -> (In n (countdown top) <-> 1 <= n <= top).
Proof.
  intros Hm. unfold countdown. rewrite in_map_iff. split.
  - intros (k & <- & Hk). apply in_rev, in_seq in Hk. lia.
  - intros Hn. exists (Z.to_nat n). split; [lia|].
    apply in_rev. rewrite rev_involutive. apply in_seq. lia.
Qed.

Lemma fresh_loop_invariant cfg s0 :
  num_epochs s0 = 0 ->
  num_epochs_since_checkpoint s0 = 0 ->
  checkpoints (trace s0) = [] ->
  cadence_invariant cfg (training_iterations (training_meta s0)) s0.
Proof.
  intros Hn Hs Hc. unfold cadence_invariant, since_of.
  rewrite Hn, Hs, Hc. simpl.
  destruct (0 <? checkpoint_every_epochs cfg); repeat split; auto; try lia.
Qed.

(** C4, as the code has it.  The decision of line 285 is [k >= c]; and
    in a loop that starts with both counters at 0, has a positive cadence
    [c] and meets no failing write (neither a write of a checkpoint nor
    the save of the progress file of line 282, which comes before the
    decision), the checkpoints are produced on the epochs [c], [2c],
    [3c], ... and on no other: the epochs with a checkpoint are, newest
    first, the multiples of [c] among the epochs that were completed, each
    once, and at every check of the loop condition the counter since the
    last checkpoint is the number of epochs modulo [c]. *)
Theorem checkpoint_cadence_correct cfg epochs s0 :
  0 < checkpoint_every_epochs cfg ->
  Forall no_write_fault epochs ->
  num_epochs s0 = 0 ->
  num_epochs_since_checkpoint s0 = 0 ->
  checkpoints (trace s0) = [] ->
  let c := checkpoint_every_epochs cfg in
  let s := snd (while_loop cfg epochs s0) in
  (forall k c', shouldCheckpoint k c' = true <-> k >= c') /\
  map fst (checkpoints (trace s)) =
    filter (fun n => n mod c =? 0) (countdown (num_epochs s)) /\
  (forall n, In n (map fst (checkpoints (trace s))) <->
             1 <= n <= num_epochs s /\ n mod c = 0) /\
  num_epochs_since_checkpoint s = num_epochs s mod c.
Proof.
  intros Hc Hw Hn Hs Ht c s.
  pose proof (while_loop_keeps_invariant cfg _ epochs s0 Hw
                (fresh_loop_invariant cfg s0 Hn Hs Ht)) as (In' & Is & _ & Ic).
  fold s in In', Is, Ic. fold c in Is, Ic.
  assert (Hlt : (0 <? c) = true) by (apply Z.ltb_lt; assumption).
  assert (L : map fst (checkpoints (trace s)) =
              filter (fun n => n mod c =? 0) (countdown (num_epochs s))).
  { rewrite Ic, map_map. simpl. rewrite map_id.
    apply filter_ext. intros n. unfold due. rewrite Hlt. reflexivity. }
  split.
  { intros k c'. unfold shouldCheckpoint. rewrite Z.geb_le. lia. }
  split; [exact L|]. split.
  - intros n. rewrite L, filter_In, (in_countdown _ _ In'), Z.eqb_eq. tauto.
  - rewrite Is. unfold since_of. rewrite Hlt. reflexivity.
Qed.

(** ** Runs in which nothing fails *)

Lemma quiet_no_write_fault epochs :
  Forall quiet epochs -> Forall no_write_fault epochs.
Proof. apply Forall_impl. intros e (_ & H & _). exact H. Qed.

Lemma epoch_body_quiet cfg e s :
  quiet e -> exists s', epoch_body cfg e s = (Ok tt, s').
Proof.
  intros (Ht & (Hp & Hm & Hc) & _). step_body. rewrite Ht, Hp, Hm, Hc. simpl.
  destruct (shouldCheckpoint _ _); simpl; eexists; reflexivity.
Qed.

Lemma loop_condition_at_target cfg s :
  0 <= target_epochs cfg ->
  num_epochs s = target_epochs cfg ->
  loop_condition cfg s = false.
Proof.
  intros Ht E. unfold loop_condition.
  replace (num_epochs s <? target_epochs cfg) with false
    by (symmetry; apply Z.ltb_ge; lia).
  replace (target_epochs cfg <? 0) with false by (symmetry; apply Z.ltb_ge; lia).
  apply andb_false_r.
Qed.

(** With a target, enough quiet epochs and no request to quit, the loop
    returns when the target is reached. *)
Lemma while_loop_reaches_target cfg epochs s :
  0 <= target_epochs cfg ->
  0 <= target_epochs cfg - num_epochs s ->
  (Z.to_nat (target_epochs cfg - num_epochs s) <= List.length epochs)%nat ->
  Forall quiet epochs ->
  should_graceful_exit s = false ->
  exists s',
    while_loop cfg epochs s = (Ok tt, s') /\
    num_epochs s' = target_epochs cfg /\
    should_graceful_exit s' = false /\
    tokenizer_index (training_meta s') = tokenizer_index (training_meta s) /\
    train_calls (trace s') =
      (train_calls (trace s) + Z.to_nat (target_epochs cfg - num_epochs s))%nat /\
    failure_logged (trace s') = failure_logged (trace s) /\
    (num_epochs s < target_epochs cfg ->
     disk s' TrainingMetaPath = Json (to_json (training_meta s'))).
Proof.
  intros Ht Hm Hlen Hq; revert s Hm Hlen.
  induction Hq as [|e rest He _ IH]; intros s Hm Hlen Hs.
  - simpl in Hlen. assert (E : num_epochs s = target_epochs cfg) by lia.
    exists s. rewrite while_loop_exit by (apply loop_condition_at_target; assumption).
    rewrite E, Z.sub_diag. simpl. repeat split; auto; lia.
  - destruct (Z.eq_dec (num_epochs s) (target_epochs cfg)) as [E|E].
    + exists s. rewrite while_loop_exit by (apply loop_condition_at_target; assumption).
      rewrite E, Z.sub_diag. simpl. repeat split; auto; lia.
    + assert (C : loop_condition cfg s = true).
      { unfold loop_condition. rewrite Hs. simpl.
        apply orb_true_iff; left. apply Z.ltb_lt. lia. }
      rewrite while_loop_turn by assumption.
      destruct (epoch_body_quiet cfg e s He) as (s1 & B). rewrite B.
      destruct (epoch_body_returns _ _ _ _ B)
        as (_ & _ & En & _ & Ek & _ & Es & Ed & Ec & _ & _ & Ef).
      destruct He as (_ & _ & Hnq).
      rewrite (console_reads_no_quit _ _ Hnq), Hs in Es.
      destruct (IH s1) as (s' & W & Wn & Ws & Wk & Wc & Wf & Wd);
        try (rewrite En; simpl in Hlen; lia); try assumption.
      exists s'. rewrite W, Wk, Wc, Wf, Ek, Ec, Ef, En.
      repeat split; auto; try lia.
      intros _. destruct (Z.eq_dec (num_epochs s1) (target_epochs cfg)) as [E1|E1].
      * rewrite while_loop_exit in W by (apply loop_condition_at_target; assumption).
        inversion W; subst s'. assumption.
      * apply Wd. lia.
Qed.

Lemma terminal_handling_writable cfg s :
  terminal_handling cfg NoFault s = (Ok tt, after_terminal_handling cfg s).
Proof.
  unfold terminal_handling, after_terminal_handling. step_body.
  destruct (should_graceful_exit s); reflexivity.
Qed.

Lemma after_terminal_handling_frame cfg s :
  let s' := after_terminal_handling cfg s in
  disk s' TrainingMetaPath = Json (to_json (training_meta s)) /\
  (forall l, l <> TrainingMetaPath -> disk s' l = disk s l) /\
  training_meta s' = training_meta s /\
  num_epochs s' = num_epochs s /\
  should_graceful_exit s' = should_graceful_exit s /\
  train_calls (trace s') = train_calls (trace s) /\
  checkpoints (trace s') = checkpoints (trace s) /\
  failure_logged (trace s') = failure_logged (trace s).
Proof.
  unfold after_terminal_handling.
  destruct (should_graceful_exit s) eqn:E; simpl; rewrite ?E;
    (repeat split; auto);
    intros l Hl; unfold disk_put; destruct l; simpl; congruence.
Qed.

Lemma training_block_writable cfg epochs s :
  training_block cfg epochs NoFault s =
  match while_loop cfg epochs (loop_start s) with
  | (Ok _, s') => (Ok tt, after_terminal_handling cfg s')
  | (Raise x, s') =>
      (Ok tt, after_terminal_handling cfg (emit (Log Error (FailedToTrain x)) s'))
  | (Running, s') => (Running, s')
  end.
Proof.
  unfold training_block, try_finally, try_except, bind, modify, log. simpl.
  fold (loop_start s).
  destruct (while_loop cfg epochs (loop_start s)) as [[[]|x|] s']; simpl;
    rewrite ?terminal_handling_writable; reflexivity.
Qed.

Lemma do_training_fresh cfg epochs d :
  d TrainingMetaPath = Absent ->
  do_training cfg epochs NoFault (initial_state d cfg) =
  match while_loop cfg epochs (fresh_start d cfg) with
  | (Ok _, s') => (Ok tt, after_terminal_handling cfg s')
  | (Raise x, s') =>
      (Ok tt, after_terminal_handling cfg (emit (Log Error (FailedToTrain x)) s'))
  | (Running, s') => (Running, s')
  end.
Proof.
  intros Hd. unfold do_training, init_training_meta, log, bind, modify, get. simpl.
  rewrite Hd. unfold ret. rewrite training_block_writable. reflexivity.
Qed.

(** C9, as the code has it.  Nothing checks the cadence.  With a cadence
    of 0 or below, a run without a progress file on a writable disk raises
    no error, of configuration or other; the loop runs as with any other
    cadence (with an epoch to run and a target other than 0 the executor
    is called); the condition of line 285 holds after every epoch, and,
    the writes succeeding, every completed epoch has its checkpoint. *)
Theorem nonpositive_cadence_checkpoints_every_epoch cfg epochs d :
  checkpoint_every_epochs cfg <= 0 ->
  Forall no_write_fault epochs ->
  d TrainingMetaPath = Absent ->
  let r := do_training cfg epochs NoFault (initial_state d cfg) in
  (forall x, fst r <> Raise x) /\
  (forall k, 1 <= k -> shouldCheckpoint k (checkpoint_every_epochs cfg) = true) /\
  map fst (checkpoints (trace (snd r))) = countdown (num_epochs (snd r)) /\
  (epochs <> [] -> target_epochs cfg <> 0 ->
   (1 <= train_calls (trace (snd r)))%nat).
Proof.
  intros Hc Hw Hd r.
  set (s0 := fresh_start d cfg).
  pose proof (while_loop_keeps_invariant cfg 0 epochs s0 Hw) as Inv.
  destruct Inv as (In' & _ & _ & Ic).
  { unfold cadence_invariant, since_of; simpl.
    destruct (0 <? checkpoint_every_epochs cfg); repeat split; auto; lia. }
  assert (Hlt : (0 <? checkpoint_every_epochs cfg) = false) by (apply Z.ltb_ge; assumption).
  assert (L : map fst (checkpoints (trace (snd (while_loop cfg epochs s0)))) =
              countdown (num_epochs (snd (while_loop cfg epochs s0)))).
  { rewrite Ic, map_map. simpl. rewrite map_id.
    rewrite (filter_ext _ (fun _ => true)).
    - apply filter_all.
    - intros n. unfold due. rewrite Hlt. reflexivity. }
  assert (T : epochs <> [] -> target_epochs cfg <> 0 ->
              (1 <= train_calls (trace (snd (while_loop cfg epochs s0))))%nat).
  { intros He Ht. destruct epochs as [|e rest]; [congruence|].
    assert (C : loop_condition cfg s0 = true).
    { unfold loop_condition; simpl.
      destruct (Z.ltb_spec 0 (target_epochs cfg)); simpl; auto.
      apply Z.ltb_lt. lia. }
    rewrite while_loop_turn by assumption.
    destruct (epoch_body_always cfg e s0) as (_ & Tc & _).
    destruct (epoch_body cfg e s0) as [[[]|x|] s1]; simpl in *; try lia.
    pose proof (while_loop_train_calls_mono cfg rest s1). lia. }
  subst r. rewrite (do_training_fresh cfg epochs d Hd). fold s0.
  destruct (while_loop cfg epochs s0) as [[[]|x|] s1]; simpl fst; simpl snd.
  - destruct (after_terminal_handling_frame cfg s1)
      as (_ & _ & _ & Tn & _ & Tc & Tk & _).
    rewrite Tn, Tc, Tk. simpl in L, T.
    split; [discriminate|]. split; [|split; assumption].
    intros k Hk. unfold shouldCheckpoint. apply Z.geb_le. lia.
  - destruct (after_terminal_handling_frame cfg (emit (Log Error (FailedToTrain x)) s1))
      as (_ & _ & _ & Tn & _ & Tc & Tk & _).
    rewrite Tn, Tc, Tk. simpl in L, T |- *.
    split; [discriminate|]. split; [|split; assumption].
    intros k Hk. unfold shouldCheckpoint. apply Z.geb_le. lia.
  - simpl in L, T.
    split; [discriminate|]. split; [|split; assumption].
    intros k Hk. unfold shouldCheckpoint. apply Z.geb_le. lia.
Qed.

(** C5.  A fresh run (no progress file) with cadence 5, target 12 and 100
    steps per epoch, in which nothing fails and the operator never asks
    to quit, whatever else the operator types and however many more
    epochs the environment would allow: [do_training] returns, the
    executor was called 12 times, two checkpoints were produced, in
    epochs 5 and 10, in the directories named by the counts 500 and 1000,
    the progress file holds 1200 iterations, and the run ended because
    the target was reached ([Completed]). *)
Theorem scenario_cadence_5_target_12 (tok : P) d epochs :
  d TrainingMetaPath = Absent ->
  Forall quiet epochs ->
  (12 <= List.length epochs)%nat ->
  let cfg := mkConfig tok 12 100 5 in
  let r := do_training cfg epochs NoFault (initial_state d cfg) in
  fst r = Ok tt /\
  phase r = Completed /\
  train_calls (trace (snd r)) = 12%nat /\
  num_epochs (snd r) = 12 /\
  checkpoints (trace (snd r)) = [(10, 1000); (5, 500)] /\
  training_meta (snd r) = mkTrainingMetadata 1200 tok /\
  disk (snd r) TrainingMetaPath = Json (to_json (mkTrainingMetadata 1200 tok)).
Proof.
  intros Hd Hq Hlen cfg r.
  set (s0 := fresh_start d cfg).
  destruct (while_loop_reaches_target cfg epochs s0) as
    (s' & W & Wn & Ws & Wk & Wc & Wf & Wd); auto; try (simpl; lia).
  pose proof (while_loop_keeps_invariant cfg 0 epochs s0
                (quiet_no_write_fault _ Hq)) as Inv.
  rewrite W in Inv. simpl in Inv.
  destruct Inv as (_ & _ & Ii & Ic).
  { unfold cadence_invariant; simpl. repeat split; auto; lia. }
  rewrite Wn in Ii, Ic. simpl in Ii, Ic, Wk, Wc, Wf.
  assert (M : training_meta s' = mkTrainingMetadata 1200 tok).
  { destruct (training_meta s') as [n t]; simpl in *. subst. reflexivity. }
  assert (R : r = (Ok tt, after_terminal_handling cfg s')).
  { subst r. rewrite (do_training_fresh cfg epochs d Hd). fold s0. rewrite W.
    reflexivity. }
  destruct (after_terminal_handling_frame cfg s')
    as (Td & _ & Tm & Tn & Ts & Tc & Tk & Tf).
  rewrite R. unfold phase. simpl fst. simpl snd.
  rewrite Td, Tm, Tn, Ts, Tc, Tk, Tf, Wf, Ws, Wc, Ic, Wn, M.
  repeat split; reflexivity.
Qed.

(** ** Failures *)

(** C3, as the code has it.  Let the loop have run the epochs of [pre]
    and let the executor raise [x] in the next one.  The loop stops; the
    exception is caught and logged as an error, and it is not raised
    again: on a writable disk [do_training]'s block returns normally.
    After the error was logged the terminal handling writes the progress
    file, with the progress known before the failing epoch, and reports
    the summary; the failing epoch is not counted. *)
Theorem executor_failure_is_logged_then_summarised cfg pre e post x si s :
  while_loop cfg pre (loop_start si) = (Running, s) ->
  train_fault e = Some x ->
  let r := training_block cfg (pre ++ e :: post) NoFault si in
  fst r = Ok tt /\
  phase r = Failed /\
  train_calls (trace (snd r)) = (train_calls (trace si) + List.length pre + 1)%nat /\
  num_epochs (snd r) = Z.of_nat (List.length pre) /\
  training_meta (snd r) = training_meta s /\
  disk (snd r) TrainingMetaPath = Json (to_json (training_meta s)) /\
  exists stopping,
    (stopping = [] \/ stopping = [Log Info GracefullyShutDown]) /\
    trace (snd r) =
      Log Info ModelSavedInto
      :: Log Info (Summary (num_epochs s) (train_epoch_steps cfg * num_epochs s)
                           (training_iterations (training_meta s)))
      :: Stored TrainingMetaPath (Json (to_json (training_meta s)))
      :: Stored TrainingMetaPath Partial
      :: stopping
      ++ Log Error (FailedToTrain x) :: trace (after_train e s).
Proof.
  intros Hpre Hx r.
  destruct (while_loop_app cfg pre (e :: post) _ s Hpre) as (E & C & Hn & _ & Hc).
  simpl in Hn, Hc.
  destruct (after_train_frame e s) as (Fd & Fm & Fn & _).
  destruct (after_train_trace e s) as (logs & Ft & Fl).
  destruct (from_console_observations logs (Train :: trace s) Fl) as (Ot & _).
  assert (R : r = (Ok tt, after_terminal_handling cfg
                            (emit (Log Error (FailedToTrain x)) (after_train e s)))).
  { subst r. rewrite training_block_writable, E, while_loop_turn by assumption.
    rewrite (epoch_body_train_raises cfg e s x Hx). reflexivity. }
  rewrite R. unfold phase, after_terminal_handling. simpl.
  destruct (should_graceful_exit (after_train e s)) eqn:G;
    simpl; rewrite ?Fm, ?Fn, ?Ft, ?Ot; simpl; rewrite ?Hc, ?Hn;
    (repeat split; try reflexivity; try lia);
    [ exists [Log Info GracefullyShutDown] | exists [] ];
    (split; [auto|]); reflexivity.
Qed.

Lemma epoch_body_checkpoint_fails cfg e s :
  train_fault e = None ->
  progress_save_fault e = NoFault ->
  shouldCheckpoint (num_epochs_since_checkpoint s + 1) (checkpoint_every_epochs cfg) = true ->
  model_save_fault e <> None \/ checkpoint_save_fault e <> NoFault ->
  exists x, fst (epoch_body cfg e s) = Raise x.
Proof.
  intros Ht Hp Hd Hf.
  destruct (after_train_frame e s) as (_ & _ & _ & Fc).
  step_body. fold (after_train e s). rewrite Ht, Hp. simpl. rewrite Fc, Hd.
  destruct (model_save_fault e) as [x|]; simpl; [eexists; reflexivity|].
  destruct (checkpoint_save_fault e); simpl;
    try (eexists; reflexivity).
  destruct Hf as [Hf|Hf]; exfalso; apply Hf; reflexivity.
Qed.

(** C2, as the code has it.  Let the loop have run the epochs of [pre],
    and let the next epoch be one whose checkpoint is due and cannot be
    written (the snapshot or the copy of the progress file raises).  The
    epoch counter was incremented for that epoch and its progress was
    saved before the checkpoint was tried; the exception then leaves the
    loop: it is logged as the failure of the training, the terminal
    handling runs (it saves the progress and reports the summary), and
    no further epoch is executed, whatever the environment offers.  The
    trace of the run ends, oldest event first, with: the report of the
    epoch, the save of its progress, what was written of the
    checkpoint, the error, the graceful-shutdown line if the signal is
    set, the final save, the summary and the closing message. *)
Theorem checkpoint_failure_ends_the_loop cfg pre e post si s :
  while_loop cfg pre (loop_start si) = (Running, s) ->
  train_fault e = None ->
  progress_save_fault e = NoFault ->
  shouldCheckpoint (num_epochs_since_checkpoint s + 1) (checkpoint_every_epochs cfg) = true ->
  model_save_fault e <> None \/ checkpoint_save_fault e <> NoFault ->
  let r := training_block cfg (pre ++ e :: post) NoFault si in
  fst r = Ok tt /\
  phase r = Failed /\
  num_epochs (snd r) = Z.of_nat (List.length pre) + 1 /\
  train_calls (trace (snd r)) = (train_calls (trace si) + List.length pre + 1)%nat /\
  training_iterations (training_meta (snd r)) =
    training_iterations (training_meta s) + train_epoch_steps cfg /\
  disk (snd r) TrainingMetaPath = Json (to_json (training_meta (snd r))) /\
  let n := num_epochs (snd r) in
  let total := training_iterations (training_meta (snd r)) in
  let doc := to_json (training_meta (snd r)) in
  exists x written stopping,
    (model_save_fault e = Some x /\ written = [] \/
     model_save_fault e = None /\ x = OSError /\
     (checkpoint_save_fault e = OpenFails /\
      written = [Stored (CheckpointDir total) ModelDir] \/
      checkpoint_save_fault e = DumpFails /\
      written = [Stored (CheckpointMetaPath total) Partial;
                 Stored (CheckpointDir total) ModelDir])) /\
    (stopping = [] \/ stopping = [Log Info GracefullyShutDown]) /\
    trace (snd r) =
      Log Info ModelSavedInto
      :: Log Info (Summary n (train_epoch_steps cfg * n) total)
      :: Stored TrainingMetaPath (Json doc)
      :: Stored TrainingMetaPath Partial
      :: stopping
      ++ Log Error (FailedToTrain x)
      :: written
      ++ Stored TrainingMetaPath (Json doc)
      :: Stored TrainingMetaPath Partial
      :: Log Info (EpochCompleted n (train_epoch_steps cfg) total)
      :: trace (after_train e s).
Proof.
  intros Hpre Ht Hp Hd Hf r.
  destruct (while_loop_app cfg pre (e :: post) _ s Hpre) as (E & C & Hn & _ & Hc).
  simpl in Hn, Hc.
  destruct (epoch_body_checkpoint_fails cfg e s Ht Hp Hd Hf) as (x & Hx).
  destruct (epoch_body_persists cfg e s Ht Hp) as (Pn & Pi & Pd & _).
  destruct (epoch_body_always cfg e s) as (_ & Tc & _).
  destruct (epoch_body cfg e s) as [res s1] eqn:B.
  simpl in Hx, Pn, Pi, Pd, Tc. subst res.
  assert (R : r = (Ok tt, after_terminal_handling cfg
                            (emit (Log Error (FailedToTrain x)) s1))).
  { subst r. rewrite training_block_writable, E, while_loop_turn by assumption.
    rewrite B. reflexivity. }
  destruct (after_terminal_handling_frame cfg (emit (Log Error (FailedToTrain x)) s1))
    as (Td & _ & Tm & Tn & Ts & Tk & _ & Tf).
  rewrite R. unfold phase. simpl fst. simpl snd.
  rewrite Td, Tm, Tn, Tk, Tf. simpl.
  rewrite Pn, Pi, Tc, Hn, Hc.
  do 6 (split; [auto; lia|]).
  destruct (after_train_frame e s) as (_ & Fm & Fn & Fc).
  set (total := training_iterations (training_meta s) + train_epoch_steps cfg).
  revert B. step_body. fold (after_train e s). rewrite Ht, Hp. simpl. rewrite Fc, Hd.
  unfold after_terminal_handling.
  destruct (model_save_fault e) as [y|] eqn:Hm; simpl.
  - intros B; inversion B; subst x s1; clear B. simpl.
    rewrite ?Fn, ?Fm, ?Hn. fold total.
    exists y, [].
    destruct (should_graceful_exit (after_train e s));
      [exists [Log Info GracefullyShutDown] | exists []];
      (split; [left; auto|]); (split; [auto|]); reflexivity.
  - destruct (checkpoint_save_fault e) eqn:Hk; simpl.
    + exfalso. destruct Hf as [Hf|Hf]; apply Hf; reflexivity.
    + intros B; inversion B; subst x s1; clear B. simpl.
      rewrite ?Fn, ?Fm, ?Hn. fold total.
      exists OSError, [Stored (CheckpointDir total) ModelDir].
      destruct (should_graceful_exit (after_train e s));
        [exists [Log Info GracefullyShutDown] | exists []];
        (split; [right; auto|]); (split; [auto|]); reflexivity.
    + intros B; inversion B; subst x s1; clear B. simpl.
      rewrite ?Fn, ?Fm, ?Hn. fold total.
      exists OSError,
        [Stored (CheckpointMetaPath total) Partial; Stored (CheckpointDir total) ModelDir].
      destruct (should_graceful_exit (after_train e s));
        [exists [Log Info GracefullyShutDown] | exists []];
        (split; [right; auto|]); (split; [auto|]); reflexivity.
Qed.

(** ** Loading and saving the progress *)

Lemma Location_eqb_refl l : Location_eqb l l = true.
Proof. destruct l; simpl; auto using Z.eqb_refl. Qed.

Lemma Location_eqb_neq l l' : l' <> l -> Location_eqb l l' = false.
Proof.
  intros H. destruct l, l'; simpl; auto; try congruence;
    apply Z.eqb_neq; congruence.
Qed.

(** C6.  When the progress file holds the tokenizer index [a] and the
    iteration count [n], and [a] differs from the tokenizer index of the
    invocation (the comparison of line 252 holds), the start of
    [do_training] does not fail: the progress in memory has the
    tokenizer index of the invocation and the iteration count [n], one
    event is added to the trace and it is the warning, and the disk is as
    it was. *)
Theorem tokenizer_of_the_invocation_wins cfg s data n a :
  disk s TrainingMetaPath = Json (JObj data) ->
  member "training_iterations" data = Some (JNum n) ->
  member "tokenizer_index" data = Some (JStr a) ->
  path_ne (LocalPath a) (arg_tokenizer_index cfg) = true ->
  let r := init_training_meta cfg s in
  fst r = Ok tt /\
  training_meta (snd r) = mkTrainingMetadata n (arg_tokenizer_index cfg) /\
  trace (snd r) =
    Log Warn (TokenizerMismatch (LocalPath a) (arg_tokenizer_index cfg)) :: trace s /\
  List.length (filter is_warning (trace (snd r))) =
    S (List.length (filter is_warning (trace s))) /\
  disk (snd r) = disk s.
Proof.
  intros Hd Hn Ha Hne r. subst r.
  unfold init_training_meta, load, log, bind, modify, get, ret. simpl.
  rewrite Hd. simpl. rewrite ?Hd. simpl. rewrite Hn, Ha. simpl. rewrite Hne. simpl.
  repeat split; reflexivity.
Qed.

Lemma new_events_app before after evs :
  trace after = evs ++ trace before -> new_events before after = evs.
Proof.
  intros H. unfold new_events. rewrite H, length_app.
  replace (List.length evs + List.length (trace before) - List.length (trace before))%nat
    with (List.length evs + 0)%nat by lia.
  rewrite firstn_app_2. simpl. apply app_nil_r.
Qed.

(** C7, as the code has it.  [save] writes in place: it opens the target
    itself for writing, which leaves an incomplete file there, and then
    writes the document into it.  Between the two steps a reader finds
    the incomplete file; when [save] returns the location holds the
    complete document, and no other location was touched. *)
Theorem save_writes_in_place m l s :
  let r := save NoFault m l s in
  fst r = Ok tt /\
  new_events s (snd r) = [Stored l (Json (to_json m)); Stored l Partial] /\
  disk (snd (open_w false l s)) l = Partial /\
  r = json_dump false (to_json m) l (snd (open_w false l s)) /\
  disk (snd r) l = Json (to_json m) /\
  (forall l', l' <> l -> disk (snd r) l' = disk s l').
Proof.
  split; [reflexivity|]. split.
  { apply new_events_app. reflexivity. }
  unfold save, open_w, json_dump, bind, modify. simpl.
  unfold disk_put. rewrite Location_eqb_refl.
  repeat split; auto.
  intros l' Hl. rewrite (Location_eqb_neq l l' Hl). reflexivity.
Qed.

(** C8.  On a writable location, and for a [LocalPath] that is rebuilt
    from its project-relative path, persistence round-trips: after [save]
    the location holds the document of the progress, [load] returns the
    progress that was saved, and saving the same progress again leaves
    the same document, from which [load] returns the same progress. *)
Theorem persistence_round_trips
  (LocalPath_of_relative : forall p : P, LocalPath (get_project_relative_path p) = p)
  m l s :
  let s1 := snd (save NoFault m l s) in
  let s2 := snd (save NoFault m l s1) in
  fst (save NoFault m l s) = Ok tt /\
  load l s1 = (Ok m, s1) /\
  fst (save NoFault m l s1) = Ok tt /\
  disk s2 l = disk s1 l /\
  disk s1 l = Json (to_json m) /\
  load l s2 = (Ok m, s2).
Proof.
  unfold save, load, open_w, json_dump, bind, modify, get, ret. simpl.
  unfold disk_put. rewrite Location_eqb_refl. simpl.
  rewrite LocalPath_of_relative. destruct m; simpl.
  repeat split; reflexivity.
Qed.

Lemma Str_eqb_eq a b : Str.eqb a b = true <-> a = b.
Proof.
  revert b; induction a as [|x a IH]; destruct b as [|y b]; simpl;
    try (split; [discriminate | congruence]); try tauto.
  rewrite andb_true_iff, N.eqb_eq, IH. split.
  - intros (-> & ->); reflexivity.
  - intros H; inversion H; auto.
Qed.

Lemma lstrip_blank_app a r : blank a -> Str.lstrip (a ++ r) = Str.lstrip r.
Proof.
  induction 1 as [|c a Hc _ IH]; simpl; auto.
  rewrite Hc. exact IH.
Qed.

Lemma lstrip_blank a : blank a -> Str.lstrip a = [].
Proof.
  intros H. rewrite <- (app_nil_r a). rewrite lstrip_blank_app; auto.
Qed.

Lemma strip_trimmed a core b :
  blank a -> blank b -> trimmed core -> Str.strip (a ++ core ++ b) = core.
Proof.
  intros Ha Hb (Hfirst & Hlast). unfold Str.strip, Str.rstrip.
  rewrite lstrip_blank_app by assumption.
  destruct core as [|c rest].
  - simpl. rewrite (lstrip_blank b Hb). reflexivity.
  - simpl. rewrite (Hfirst c rest eq_refl).
    change (c :: rest ++ b) with ((c :: rest) ++ b).
    rewrite rev_app_distr.
    rewrite lstrip_blank_app by (apply Forall_rev; assumption).
    destruct (exists_last (l := c :: rest)) as (init & c' & E); [discriminate|].
    rewrite E, rev_app_distr. simpl.
    rewrite (Hlast c' init E). simpl.
    rewrite rev_involutive. reflexivity.
Qed.

(** C10.  The console matches the stripped line: a line that is ["quit"]
    between whitespace sets the signal and ends the console loop, one
    that is ["help"] between whitespace prints the two lines of help and
    the loop goes on, and every other line is reported, stripped, as
    unrecognized, the signal and the loop being left as they are.
    Stripping removes the whitespace on both sides and nothing else, and
    the match is exact: ["  quit  "] quits, [" help "] helps, ["Quit"] is
    neither. *)
Theorem console_strips_then_matches_exactly s text :
  console s = Reading ->
  let user_input := Str.strip text in
  let s' := console_reads [Line text] s in
  (forall a core b, blank a -> blank b -> trimmed core ->
     Str.strip (a ++ core ++ b) = core) /\
  (user_input = Str.lit "quit" ->
     should_graceful_exit s' = true /\ console s' = Returned /\
     trace s' = Log Info AttemptingShutdown :: trace s) /\
  (user_input = Str.lit "help" ->
     should_graceful_exit s' = should_graceful_exit s /\ console s' = Reading /\
     trace s' = Log Info HelpQuit :: Log Info HelpHeader :: trace s) /\
  (user_input <> Str.lit "quit" -> user_input <> Str.lit "help" ->
     should_graceful_exit s' = should_graceful_exit s /\ console s' = Reading /\
     trace s' = Log Info (Unrecognized user_input) :: trace s) /\
  Str.strip (Str.lit "  quit  ") = Str.lit "quit" /\
  Str.strip (Str.lit " help ") = Str.lit "help" /\
  Str.strip (Str.lit "Quit") = Str.lit "Quit" /\
  Str.lit "Quit" <> Str.lit "quit" /\
  Str.lit "Quit" <> Str.lit "help".
Proof.
  intros Hr user_input s'. subst s'. simpl. rewrite Hr. fold user_input.
  split; [exact strip_trimmed|].
  split.
  { intros E. rewrite E. simpl. auto. }
  split.
  { intros E. rewrite E. simpl. auto. }
  split.
  { intros Hq Hh.
    destruct (Str.eqb user_input (Str.lit "quit")) eqn:Eq.
    { apply Str_eqb_eq in Eq. contradiction. }
    destruct (Str.eqb user_input (Str.lit "help")) eqn:Eh.
    { apply Str_eqb_eq in Eh. contradiction. }
    simpl. auto. }
  repeat split; try reflexivity; discriminate.
Qed.

End Properties.

(** * The properties on concrete runs *)

(** C1 on a run without a limit of epochs in which the operator types
    [quit] during the third epoch. *)
Lemma shutdown_respects_epoch_boundary_witness :
  let r := while_loop unbounded
             ([quiet_epoch; quiet_epoch] ++ quit_epoch :: [quiet_epoch; quiet_epoch])
             (fresh_start empty_disk unbounded) in
  fst r = Ok tt /\
  train_calls (trace (snd r)) = 3%nat /\
  num_epochs (snd r) = 3 /\
  disk (snd r) TrainingMetaPath = Json (to_json (mkTrainingMetadata 300 tok)).
Proof.
  pose proof (shutdown_respects_epoch_boundary unbounded
                [quiet_epoch; quiet_epoch] quit_epoch [quiet_epoch; quiet_epoch]
                (fresh_start empty_disk unbounded)
                (snd (while_loop unbounded [quiet_epoch; quiet_epoch]
                        (fresh_start empty_disk unbounded)))
                ltac:(vm_compute; reflexivity) ltac:(vm_compute; reflexivity))
    as (_ & Hcalls & _ & Hdone).
  destruct (Hdone eq_refl eq_refl) as (Hn & _ & Hd & _).
  vm_compute in Hcalls, Hn, Hd |- *.
  split; [reflexivity|]. split; [exact Hcalls|]. split; [exact Hn | exact Hd].
Defined.

(** C4 on seven epochs with a cadence of 3. *)
Lemma checkpoint_cadence_correct_witness :
  let s := snd (while_loop seven_epochs (repeat quiet_epoch 9)
                  (fresh_start empty_disk seven_epochs)) in
  map fst (checkpoints (trace s)) = [6; 3] /\ num_epochs_since_checkpoint s = 1.
Proof.
  pose proof (checkpoint_cadence_correct seven_epochs (repeat quiet_epoch 9)
                (fresh_start empty_disk seven_epochs)
                ltac:(vm_compute; reflexivity)
                ltac:(repeat constructor)
                ltac:(vm_compute; reflexivity) ltac:(vm_compute; reflexivity)
                ltac:(vm_compute; reflexivity)) as (_ & Hl & _ & Hs).
  vm_compute in Hl, Hs |- *.
  split; [exact Hl | exact Hs].
Defined.

(** C4 fails on the code.  The cadence is 1 and no write of a checkpoint
    fails, but the save of the progress file of line 282 is interrupted
    in the first epoch: the epoch is counted and reported as completed,
    the exception leaves the loop before the decision of line 285, and
    epoch 1, a multiple of the cadence, has no checkpoint. *)
Lemma progress_save_failure_skips_the_checkpoint :
  let epochs := [failing_progress_save; quiet_epoch; quiet_epoch] in
  let r := do_training three_epochs epochs NoFault
             (initial_state empty_disk three_epochs) in
  checkpoint_every_epochs three_epochs = 1 /\
  Forall (fun e => model_save_fault e = None /\ checkpoint_save_fault e = NoFault)
         epochs /\
  num_epochs (snd r) = 1 /\
  In (Log Info (EpochCompleted 1 100 100)) (trace (snd r)) /\
  checkpoints (trace (snd r)) = [] /\
  ~ (forall n, In n (map fst (checkpoints (trace (snd r)))) <->
               1 <= n <= num_epochs (snd r) /\
               n mod checkpoint_every_epochs three_epochs = 0).
Proof.
  intros epochs r.
  assert (Hn : num_epochs (snd r) = 1) by (vm_compute; reflexivity).
  assert (Hc : checkpoints (trace (snd r)) = []) by (vm_compute; reflexivity).
  split; [reflexivity|].
  split; [repeat constructor|].
  split; [exact Hn|].
  split; [vm_compute; auto 20|].
  split; [exact Hc|].
  intros H. specialize (H 1). rewrite Hc, Hn in H.
  apply (proj2 H). split; [lia | reflexivity].
Qed.

(** C5 when the environment would allow 14 epochs. *)
Lemma scenario_cadence_5_target_12_witness :
  let cfg := mkConfig tok 12 100 5 in
  let r := do_training cfg (repeat quiet_epoch 14) NoFault (initial_state empty_disk cfg) in
  phase r = Completed /\ checkpoints (trace (snd r)) = [(10, 1000); (5, 500)].
Proof.
  pose proof (scenario_cadence_5_target_12 tok empty_disk (repeat quiet_epoch 14)
                ltac:(vm_compute; reflexivity)
                ltac:(repeat constructor)
                ltac:(vm_compute; lia)) as (_ & Hp & _ & _ & Hc & _).
  vm_compute in Hp, Hc |- *.
  split; [exact Hp | exact Hc].
Defined.

(** C9 as amended, on two epochs with a cadence of 0. *)
Lemma nonpositive_cadence_witness :
  let r := do_training cadence_zero (repeat quiet_epoch 2) NoFault
             (initial_state empty_disk cadence_zero) in
  map fst (checkpoints (trace (snd r))) = [2; 1] /\
  (1 <= train_calls (trace (snd r)))%nat.
Proof.
  pose proof (nonpositive_cadence_checkpoints_every_epoch cadence_zero
                (repeat quiet_epoch 2) empty_disk
                ltac:(vm_compute; discriminate)
                ltac:(repeat constructor)
                ltac:(vm_compute; reflexivity)) as (_ & _ & Hl & Hc).
  specialize (Hc ltac:(discriminate) ltac:(vm_compute; discriminate)).
  vm_compute in Hl |- *.
  split; [exact Hl | exact Hc].
Defined.

(** C9 fails on the code.  With a cadence of 0 nothing is rejected: both
    epochs are executed, each with its checkpoint, and [do_training]
    returns. *)
Lemma cadence_zero_is_not_rejected :
  let r := do_training cadence_zero (repeat quiet_epoch 2) NoFault
             (initial_state empty_disk cadence_zero) in
  checkpoint_every_epochs cadence_zero = 0 /\
  fst r = Ok tt /\
  train_calls (trace (snd r)) = 2%nat /\
  checkpoints (trace (snd r)) = [(2, 200); (1, 100)] /\
  ~ ((exists x, fst r = Raise x) /\ train_calls (trace (snd r)) = 0%nat).
Proof.
  vm_compute. repeat split; try reflexivity.
  intros (_ & H). discriminate H.
Qed.

(** C3 as amended, the executor raising in the second of three epochs. *)
Lemma executor_failure_witness :
  let r := training_block three_epochs ([quiet_epoch] ++ failing_executor :: [quiet_epoch])
             NoFault (initial_state empty_disk three_epochs) in
  fst r = Ok tt /\ phase r = Failed /\ num_epochs (snd r) = 1 /\
  disk (snd r) TrainingMetaPath = Json (to_json (mkTrainingMetadata 100 tok)).
Proof.
  pose proof (executor_failure_is_logged_then_summarised three_epochs
                [quiet_epoch] failing_executor [quiet_epoch] ExecutorError
                (initial_state empty_disk three_epochs)
                (snd (while_loop three_epochs [quiet_epoch]
                        (loop_start (initial_state empty_disk three_epochs))))
                ltac:(vm_compute; reflexivity) ltac:(vm_compute; reflexivity))
    as (Hr & Hp & _ & Hn & _ & Hd & _).
  vm_compute in Hr, Hp, Hn, Hd |- *.
  split; [exact Hr|]. split; [exact Hp|]. split; [exact Hn | exact Hd].
Defined.

(** C3 fails on the code.  The executor raises in the first epoch:
    [do_training] returns
    normally, nothing is raised to its caller, and the error was logged
    before the progress was written and the summary reported. *)
Lemma executor_error_is_not_propagated :
  let r := do_training three_epochs [failing_executor] NoFault
             (initial_state empty_disk three_epochs) in
  fst r = Ok tt /\
  fst r <> Raise ExecutorError /\
  rev (trace (snd r)) =
    [ Log Info SavingModelInto;
      Train;
      Log Error (FailedToTrain ExecutorError);
      Stored TrainingMetaPath Partial;
      Stored TrainingMetaPath (Json (to_json (mkTrainingMetadata 0 tok)));
      Log Info (Summary 0 0 0);
      Log Info ModelSavedInto ].
Proof.
  vm_compute. repeat split; try reflexivity. discriminate.
Qed.

(** C2 as amended, the first snapshot raising. *)
Lemma checkpoint_failure_witness :
  let r := training_block three_epochs ([] ++ failing_snapshot :: [quiet_epoch; quiet_epoch])
             NoFault (initial_state empty_disk three_epochs) in
  fst r = Ok tt /\ phase r = Failed /\ num_epochs (snd r) = 1 /\
  train_calls (trace (snd r)) = 1%nat.
Proof.
  pose proof (checkpoint_failure_ends_the_loop three_epochs
                [] failing_snapshot [quiet_epoch; quiet_epoch]
                (initial_state empty_disk three_epochs)
                (loop_start (initial_state empty_disk three_epochs))
                ltac:(vm_compute; reflexivity) ltac:(vm_compute; reflexivity)
                ltac:(vm_compute; reflexivity) ltac:(vm_compute; reflexivity)
                ltac:(left; vm_compute; discriminate))
    as (Hr & Hp & Hn & Hc & _).
  vm_compute in Hr, Hp, Hn, Hc |- *.
  split; [exact Hr|]. split; [exact Hp|]. split; [exact Hn | exact Hc].
Defined.

(** C2 fails on the code.  The snapshot of the first checkpoint raises
    an I/O error; the target
    is three epochs and nobody asks to quit.  The epoch was counted, and
    the run is over: the second epoch is never executed. *)
Lemma checkpoint_failure_aborts_the_run :
  let r := do_training three_epochs [failing_snapshot; quiet_epoch; quiet_epoch] NoFault
             (initial_state empty_disk three_epochs) in
  target_epochs three_epochs = 3 /\
  should_graceful_exit (snd r) = false /\
  fst r = Ok tt /\
  phase r = Failed /\
  num_epochs (snd r) = 1 /\
  train_calls (trace (snd r)) = 1%nat /\
  ~ (2 <= train_calls (trace (snd r)))%nat.
Proof.
  vm_compute. repeat split; try reflexivity.
  intros H. inversion H as [|? H']. inversion H'.
Qed.

(** C6 on a progress file recorded with another tokenizer index. *)
Lemma tokenizer_of_the_invocation_wins_witness :
  let r := init_training_meta unbounded (initial_state stale_disk unbounded) in
  training_meta (snd r) = mkTrainingMetadata 300 tok /\
  List.length (filter is_warning (trace (snd r))) = 1%nat.
Proof.
  pose proof (tokenizer_of_the_invocation_wins unbounded
                (initial_state stale_disk unbounded) _ 300 "old/tokenizer-index.json"
                ltac:(vm_compute; reflexivity) ltac:(vm_compute; reflexivity)
                ltac:(vm_compute; reflexivity) ltac:(vm_compute; reflexivity))
    as (_ & Hm & _ & Hw & _).
  vm_compute in Hm, Hw |- *.
  split; [exact Hm | exact Hw].
Defined.

(** C7 fails on the code.  A reader of the progress file finds the
    incomplete file while [save] runs: [save] is not atomic. *)
Lemma save_is_not_atomic :
  ~ save_is_atomic (mkTrainingMetadata 100 tok) TrainingMetaPath
      (initial_state stale_disk unbounded).
Proof.
  intros H. specialize (H Partial). vm_compute in H.
  assert (E : Partial = Json (to_json (mkTrainingMetadata 100 tok)))
    by (apply H; right; left; reflexivity).
  discriminate E.
Qed.

(** C8 for paths that are their project-relative path. *)
Lemma persistence_round_trips_witness :
  let m := mkTrainingMetadata 1200 tok in
  let s1 := snd (save NoFault m TrainingMetaPath (initial_state empty_disk unbounded)) in
  load TrainingMetaPath s1 = (Ok m, s1).
Proof.
  pose proof (persistence_round_trips (fun p : string => eq_refl)
                (mkTrainingMetadata 1200 tok) TrainingMetaPath
                (initial_state empty_disk unbounded)) as (_ & Hl & _).
  exact Hl.
Defined.

(** C10 on the lines ["  quit  "] and ["Quit"]. *)
Lemma console_strips_then_matches_exactly_witness :
  let s := initial_state empty_disk unbounded in
  should_graceful_exit (console_reads [Line (Str.lit "  quit  ")] s) = true /\
  console (console_reads [Line (Str.lit "Quit")] s) = Reading.
Proof.
  pose proof (console_strips_then_matches_exactly (initial_state empty_disk unbounded)
                (Str.lit "  quit  ") eq_refl) as (_ & Hq & _).
  pose proof (console_strips_then_matches_exactly (initial_state empty_disk unbounded)
                (Str.lit "Quit") eq_refl) as (_ & _ & _ & Hu & _).
  destruct (Hq ltac:(vm_compute; reflexivity)) as (Hs & _).
  destruct (Hu ltac:(vm_compute; discriminate) ltac:(vm_compute; discriminate)) as (_ & Hc & _).
  split; [exact Hs | exact Hc].
Defined.

(** * Further properties of the code *)

Section Further.

Context {P : Type} {paths : LocalPathOps P}.

Implicit Types (s si : @State P) (cfg : @Config P).
Implicit Types (m : @TrainingMetadata P) (t : list (@Event P)).

Ltac run_body :=
  unfold epoch_body, model_train, model_save, save, open_w, json_dump, log,
         bind, modify, get, ret, raise; simpl.

(** ** [TrainingMetadata.load]: what it refuses *)

(** X1.  [load] raises [KeyError] exactly on a missing key: it raises
    [KeyError k] if and only if the file is a JSON object and [k] is the
    first of ["training_iterations"] and ["tokenizer_index"] that the
    object does not have; a file that is no object never gives a
    [KeyError].  [load] changes nothing, whatever it returns. *)
Theorem load_raises_KeyError_exactly_on_a_missing_key (l : Location) s k :
  (fst (load l s) = Raise (KeyError k) <->
   exists data,
     disk s l = Json (JObj data) /\
     (member "training_iterations" data = None /\ k = "training_iterations"%string \/
      member "training_iterations" data <> None /\
      member "tokenizer_index" data = None /\ k = "tokenizer_index"%string)) /\
  snd (load l s) = s.
Proof.
  unfold load, bind, get, ret, raise.
  destruct (disk s l) as [| |[| | | | |data]|] eqn:Hd; simpl;
    try (split; [split; [discriminate | intros (d & E & _); discriminate E]
                | reflexivity]).
  destruct (member "training_iterations" data) as [i|] eqn:Hi; simpl.
  - destruct (member "tokenizer_index" data) as [t|] eqn:Ht; simpl.
    + split.
      * split.
        -- destruct i; simpl; try discriminate; destruct t; simpl; discriminate.
        -- intros (d & E & [(A & _)|(_ & B & _)]); inversion E; subst d; congruence.
      * destruct i; simpl; auto; destruct t; reflexivity.
    + split; [|reflexivity]. split.
      * intros E. inversion E. exists data. split; [reflexivity|].
        right. rewrite Hi. split; [discriminate|]. split; [assumption | reflexivity].
      * intros (d & E & [(A & _)|(_ & _ & ->)]); inversion E; subst d;
          [congruence | reflexivity].
  - split; [|reflexivity]. split.
    + intros E. inversion E. exists data. split; [reflexivity|]. left.
      split; [assumption | reflexivity].
    + intros (d & E & [(_ & ->)|(A & _)]); inversion E; subst d;
        [reflexivity | congruence].
Qed.

(** A turn of the loop either counts nothing (the executor raised) or
    counts the epoch and its steps together. *)
Lemma epoch_body_counts cfg e s :
  let s' := snd (epoch_body cfg e s) in
  (train_fault e <> None /\ s' = after_train e s /\
   exists x, fst (epoch_body cfg e s) = Raise x) \/
  (train_fault e = None /\
   num_epochs s' = num_epochs s + 1 /\
   training_iterations (training_meta s') =
     training_iterations (training_meta s) + train_epoch_steps cfg /\
   tokenizer_index (training_meta s') = tokenizer_index (training_meta s)).
Proof.
  destruct (after_train_frame e s) as (Fd & Fm & Fn & Fc).
  run_body. fold (after_train e s).
  destruct (train_fault e) as [x|]; simpl.
  { left. split; [discriminate|]. split; [reflexivity|]. exists x; reflexivity. }
  right. split; [reflexivity|].
  destruct (progress_save_fault e); simpl; rewrite ?Fn, ?Fm; auto.
  destruct (shouldCheckpoint _ _); simpl; rewrite ?Fn, ?Fm; auto.
  destruct (model_save_fault e); simpl; rewrite ?Fn, ?Fm; auto.
  destruct (checkpoint_save_fault e); simpl; rewrite ?Fn, ?Fm; auto.
Qed.

Lemma after_train_calls e s :
  train_calls (trace (after_train e s)) = S (train_calls (trace s)).
Proof.
  destruct (after_train_trace e s) as (logs & Ft & Fl).
  destruct (from_console_observations logs (Train :: trace s) Fl) as (Ot & _).
  rewrite Ft, Ot. reflexivity.
Qed.

(** The counters of lines 276-278 move together. *)
Lemma while_loop_progress cfg epochs s0 :
  let r := while_loop cfg epochs s0 in
  let counted := num_epochs (snd r) - num_epochs s0 in
  0 <= counted /\
  training_iterations (training_meta (snd r)) =
    training_iterations (training_meta s0) + counted * train_epoch_steps cfg /\
  tokenizer_index (training_meta (snd r)) = tokenizer_index (training_meta s0).
Proof.
  revert s0; induction epochs as [|e rest IH]; intros s0.
  - simpl. destruct (loop_condition cfg s0); simpl; (repeat split; [lia | ring]).
  - destruct (loop_condition cfg s0) eqn:C.
    2:{ rewrite while_loop_exit by assumption. simpl. repeat split; [lia | ring]. }
    rewrite while_loop_turn by assumption.
    destruct (epoch_body_always cfg e s0) as (NR & _).
    destruct (epoch_body_counts cfg e s0) as [(_ & Es & x & Ex)|(_ & En & Ei & Ek)].
    + destruct (epoch_body cfg e s0) as [res s1]. simpl in *. subst res s1. simpl.
      destruct (after_train_frame e s0) as (_ & Fm & Fn & _).
      rewrite Fn, Fm. repeat split; try lia; try ring.
    + destruct (epoch_body cfg e s0) as [[[]|x|] s1]; simpl in *.
      * specialize (IH s1). cbv zeta in IH. destruct IH as (I0 & Ii & Ik).
        rewrite Ii, Ik, Ei, Ek.
        split; [lia|]. split; [rewrite En; ring | reflexivity].
      * rewrite En, Ei, Ek. repeat split; try lia; try ring.
      * exfalso; apply NR; reflexivity.
Qed.

(** X2.  Whatever fails and whatever the operator types, the loop keeps
    its counters in step: the iteration count has grown by the step
    count times the number of epochs counted, the tokenizer index is
    untouched, and the executor was called once per counted epoch, plus
    once more only when the loop ended with an exception (the call that
    raised). *)
Theorem counters_stay_in_step cfg epochs s0 :
  let r := while_loop cfg epochs s0 in
  let counted := num_epochs (snd r) - num_epochs s0 in
  let started :=
    Z.of_nat (train_calls (trace (snd r))) - Z.of_nat (train_calls (trace s0)) in
  0 <= counted /\
  training_iterations (training_meta (snd r)) =
    training_iterations (training_meta s0) + counted * train_epoch_steps cfg /\
  tokenizer_index (training_meta (snd r)) = tokenizer_index (training_meta s0) /\
  (started = counted \/
   started = counted + 1 /\ exists x, fst r = Raise x).
Proof.
  revert s0; induction epochs as [|e rest IH]; intros s0.
  - simpl. destruct (loop_condition cfg s0); simpl;
      (repeat split; [lia | ring | left; lia]).
  - destruct (loop_condition cfg s0) eqn:C.
    2:{ rewrite while_loop_exit by assumption. simpl.
        repeat split; [lia | ring | left; lia]. }
    rewrite while_loop_turn by assumption.
    destruct (epoch_body_always cfg e s0) as (NR & Tc & _).
    destruct (epoch_body_counts cfg e s0) as [(_ & Es & x & Ex)|(_ & En & Ei & Ek)].
    + destruct (epoch_body cfg e s0) as [res s1]. simpl in *. subst res s1. simpl.
      destruct (after_train_frame e s0) as (_ & Fm & Fn & _).
      rewrite Fn, Fm, after_train_calls.
      repeat split; try lia; try ring.
      right. split; [lia|]. exists x; reflexivity.
    + destruct (epoch_body cfg e s0) as [[[]|x|] s1]; simpl in *.
      * specialize (IH s1). cbv zeta in IH.
        destruct IH as (I0 & Ii & Ik & Is).
        rewrite Ii, Ik, Ei, Ek.
        split; [lia|]. split; [rewrite En; ring|]. split; [reflexivity|].
        destruct Is as [Is|(Is & Ix)]; [left|right; split; auto]; lia.
      * rewrite En, Ei, Ek, Tc. repeat split; try lia; try ring.
      * exfalso; apply NR; reflexivity.
Qed.

Lemma while_loop_progress_current cfg epochs s0 :
  let r := while_loop cfg epochs s0 in
  (forall x, fst r <> Raise x) ->
  snd r = s0 \/
  (num_epochs s0 < num_epochs (snd r) /\
   disk (snd r) TrainingMetaPath = Json (to_json (training_meta (snd r)))).
Proof.
  revert s0; induction epochs as [|e rest IH]; intros s0.
  - simpl. destruct (loop_condition cfg s0); simpl; auto.
  - destruct (loop_condition cfg s0) eqn:C.
    2:{ rewrite while_loop_exit by assumption. simpl; auto. }
    rewrite while_loop_turn by assumption.
    destruct (epoch_body_always cfg e s0) as (NR & _).
    destruct (epoch_body cfg e s0) as [[[]|x|] s1] eqn:B; simpl.
    + destruct (epoch_body_returns _ _ _ _ B)
        as (_ & _ & En & _ & _ & _ & _ & Ed & _).
      intros Hr. right. destruct (IH s1 Hr) as [->|(Hlt & Hd)]; split; auto; lia.
    + intros Hr. exfalso. apply (Hr x). reflexivity.
    + exfalso; apply NR; reflexivity.
Qed.

(** X3.  When the loop is at a check of its condition or has returned,
    and has counted at least one epoch, the progress file holds the
    progress that is in memory: the save of an epoch is complete before
    the next epoch is considered.  When it has counted no epoch it has
    changed nothing, so the progress file is what it was before the loop
    (absent, in a run without a progress file). *)
Theorem progress_file_is_current_at_every_check cfg epochs s0 :
  let r := while_loop cfg epochs s0 in
  (forall x, fst r <> Raise x) ->
  (num_epochs s0 < num_epochs (snd r) ->
   disk (snd r) TrainingMetaPath = Json (to_json (training_meta (snd r)))) /\
  (num_epochs (snd r) = num_epochs s0 -> snd r = s0) /\
  num_epochs s0 <= num_epochs (snd r).
Proof.
  intros r Hr.
  destruct (while_loop_progress_current cfg epochs s0 Hr) as [E|(Hlt & Hd)];
    fold r in E || fold r in Hlt, Hd.
  - rewrite E. repeat split; auto; lia.
  - repeat split; auto; lia.
Qed.

(** X4.  With a target of 0 or more that is not yet exceeded, the loop
    never counts more epochs than the target and never calls the executor
    more often than there are epochs left, whatever the environment
    does. *)
Theorem never_more_epochs_than_the_target cfg epochs s0 :
  0 <= target_epochs cfg ->
  num_epochs s0 <= target_epochs cfg ->
  let r := while_loop cfg epochs s0 in
  num_epochs (snd r) <= target_epochs cfg /\
  Z.of_nat (train_calls (trace (snd r))) - Z.of_nat (train_calls (trace s0))
    <= target_epochs cfg - num_epochs s0.
Proof.
  intros Ht; revert s0; induction epochs as [|e rest IH]; intros s0 Hn.
  - simpl. destruct (loop_condition cfg s0); simpl; lia.
  - destruct (loop_condition cfg s0) eqn:C.
    2:{ rewrite while_loop_exit by assumption. simpl; lia. }
    assert (Hlt : num_epochs s0 < target_epochs cfg).
    { unfold loop_condition in C. apply andb_true_iff in C as (_ & C).
      apply orb_true_iff in C as [C|C]; [apply Z.ltb_lt in C | apply Z.ltb_lt in C]; lia. }
    rewrite while_loop_turn by assumption.
    destruct (epoch_body_always cfg e s0) as (NR & Tc & _).
    destruct (epoch_body_counts cfg e s0) as [(_ & Es & x & Ex)|(_ & En & _)].
    + destruct (epoch_body cfg e s0) as [res s1]. simpl in *. subst res s1. simpl.
      destruct (after_train_frame e s0) as (_ & _ & Fn & _).
      rewrite Fn, after_train_calls. lia.
    + destruct (epoch_body cfg e s0) as [[[]|x|] s1]; simpl in *.
      * destruct (IH s1) as (I1 & I2); lia.
      * lia.
      * exfalso; apply NR; reflexivity.
Qed.

(** X5.  The loop returns normally only when the shutdown signal is set
    or a target of 0 or more is reached; with a negative target it
    returns only on the signal. *)
Theorem loop_returns_only_when_due cfg epochs s0 :
  let r := while_loop cfg epochs s0 in
  fst r = Ok tt ->
  should_graceful_exit (snd r) = true \/
  0 <= target_epochs cfg <= num_epochs (snd r).
Proof.
  revert s0; induction epochs as [|e rest IH]; intros s0.
  - simpl. destruct (loop_condition cfg s0) eqn:C; simpl; [discriminate|].
    intros _. unfold loop_condition in C.
    destruct (should_graceful_exit s0); auto. simpl in C.
    apply orb_false_iff in C as (C1 & C2).
    apply Z.ltb_ge in C1, C2. right; lia.
  - destruct (loop_condition cfg s0) eqn:C.
    + rewrite while_loop_turn by assumption.
      destruct (epoch_body cfg e s0) as [[[]|x|] s1]; simpl; try discriminate.
      apply IH.
    + rewrite while_loop_exit by assumption. simpl.
      intros _. unfold loop_condition in C.
      destruct (should_graceful_exit s0); auto. simpl in C.
      apply orb_false_iff in C as (C1 & C2).
      apply Z.ltb_ge in C1, C2. right; lia.
Qed.

(** X6.  With a negative target, while nothing fails and the operator
    does not ask to quit, the loop does not end: it runs every epoch the
    environment describes and wants another. *)
Theorem unbounded_run_keeps_running cfg epochs s0 :
  target_epochs cfg < 0 ->
  Forall quiet epochs ->
  should_graceful_exit s0 = false ->
  let r := while_loop cfg epochs s0 in
  fst r = Running /\
  num_epochs (snd r) = num_epochs s0 + Z.of_nat (List.length epochs) /\
  train_calls (trace (snd r)) = (train_calls (trace s0) + List.length epochs)%nat /\
  should_graceful_exit (snd r) = false.
Proof.
  intros Ht Hq; revert s0; induction Hq as [|e rest He _ IH]; intros s0 Hs;
    assert (C : loop_condition cfg s0 = true)
      by (unfold loop_condition; rewrite Hs; simpl;
          apply orb_true_iff; right; apply Z.ltb_lt; assumption).
  - simpl. rewrite C. simpl. repeat split; auto; lia.
  - rewrite while_loop_turn by assumption.
    destruct (epoch_body_quiet cfg e s0 He) as (s1 & B). rewrite B.
    destruct (epoch_body_returns _ _ _ _ B)
      as (_ & _ & En & _ & _ & _ & Es & _ & Ec & _).
    destruct He as (_ & _ & Hnq).
    rewrite (console_reads_no_quit _ _ Hnq), Hs in Es.
    destruct (IH s1 Es) as (I1 & I2 & I3 & I4).
    cbv beta iota zeta in *. rewrite I1, I2, I3, I4, En, Ec. simpl List.length.
    repeat split; auto; lia.
Qed.

(** ** [do_training] as a whole *)

(** Lines 258-302 for any fault of the final save. *)
Lemma training_block_unfold cfg epochs f si :
  training_block cfg epochs f si =
  match while_loop cfg epochs (loop_start si) with
  | (Running, s') => (Running, s')
  | (Ok _, s') =>
      match terminal_handling cfg f s' with
      | (Ok _, s'') => (Ok tt, s'')
      | r' => r'
      end
  | (Raise x, s') =>
      match terminal_handling cfg f (emit (Log Error (FailedToTrain x)) s') with
      | (Ok _, s'') => (Ok tt, s'')
      | r' => r'
      end
  end.
Proof.
  unfold training_block, try_finally, try_except, bind, modify, log. simpl.
  fold (loop_start si).
  destruct (while_loop cfg epochs (loop_start si)) as [[[]|x|] s']; reflexivity.
Qed.

Lemma training_block_running cfg epochs f si :
  fst (training_block cfg epochs f si) <> Running ->
  fst (while_loop cfg epochs (loop_start si)) <> Running.
Proof.
  rewrite training_block_unfold.
  destruct (while_loop cfg epochs (loop_start si)) as [[[]|x|] s']; simpl;
    try discriminate. auto.
Qed.

(** The progress that lines 258-302 leave when the final save succeeds. *)
Lemma training_block_progress cfg epochs si :
  let r := training_block cfg epochs NoFault si in
  let n := num_epochs (snd r) in
  let total := training_iterations (training_meta si) + n * train_epoch_steps cfg in
  fst r <> Running ->
  fst r = Ok tt /\
  0 <= n /\
  training_meta (snd r) = mkTrainingMetadata total (tokenizer_index (training_meta si)) /\
  disk (snd r) TrainingMetaPath = Json (to_json (training_meta (snd r))).
Proof.
  intros r n total. subst total n r.
  rewrite training_block_writable.
  pose proof (while_loop_progress cfg epochs (loop_start si)) as H.
  cbv zeta in H. destruct H as (H0 & Hi & Hk). simpl in H0, Hi, Hk.
  rewrite Z.sub_0_r in *.
  destruct (while_loop cfg epochs (loop_start si)) as [[[]|x|] s']; simpl fst; simpl snd;
    intros NR; try (exfalso; apply NR; reflexivity);
    match goal with
    | |- context [after_terminal_handling cfg ?st] =>
        destruct (after_terminal_handling_frame cfg st) as (Td & _ & Tm & Tn & _)
    end;
    rewrite Td, Tm, Tn; simpl in *;
    (split; [reflexivity|]); (split; [assumption|]);
    (split; [destruct (training_meta s'); simpl in *; congruence | reflexivity]).
Qed.

(** X7.  Whenever lines 258-302 end and the final save succeeds, they
    return normally, however the loop ended; the progress in memory and
    in the progress file is the count the block started with plus the
    step count times the number of epochs counted, and the last two log
    lines are the summary with these numbers and the closing message. *)
Theorem training_block_persists_what_it_counted cfg epochs si :
  let r := training_block cfg epochs NoFault si in
  let n := num_epochs (snd r) in
  let total := training_iterations (training_meta si) + n * train_epoch_steps cfg in
  fst r <> Running ->
  fst r = Ok tt /\
  0 <= n /\
  training_meta (snd r) = mkTrainingMetadata total (tokenizer_index (training_meta si)) /\
  disk (snd r) TrainingMetaPath = Json (to_json (training_meta (snd r))) /\
  exists earlier,
    trace (snd r) =
      Log Info ModelSavedInto
      :: Log Info (Summary n (train_epoch_steps cfg * n) total) :: earlier.
Proof.
  intros r n total NR.
  destruct (training_block_progress cfg epochs si NR) as (Hr & Hn & Hm & Hd).
  fold r in Hr, Hn, Hm, Hd. fold n in Hn, Hm. fold total in Hm.
  repeat (split; [assumption|]).
  assert (Hi : training_iterations (training_meta (snd r)) = total)
    by (rewrite Hm; reflexivity).
  revert Hi. subst total n. subst r. revert NR.
  rewrite training_block_writable.
  destruct (while_loop cfg epochs (loop_start si)) as [[[]|x|] s']; simpl fst; simpl snd;
    intros NR; try (exfalso; apply NR; reflexivity);
    match goal with
    | |- context [after_terminal_handling cfg ?st] =>
        destruct (after_terminal_handling_frame cfg st) as (_ & _ & Tm & Tn & _)
    end;
    rewrite Tm, Tn; unfold after_terminal_handling; simpl;
    intros <-; eexists; reflexivity.
Qed.

(** [load] reads the disk and nothing else, and changes nothing. *)
Lemma load_reads_the_disk (l : Location) s s' :
  disk s l = disk s' l ->
  fst (load l s') = fst (load l s) /\ snd (load l s') = s'.
Proof.
  intros H. unfold load, bind, get, ret, raise. rewrite H.
  destruct (disk s' l) as [| |[| | | | |data]|]; simpl; auto.
  destruct (member "training_iterations" data) as [i|]; simpl; auto.
  destruct (member "tokenizer_index" data) as [k|]; simpl; auto.
  destruct i; simpl; auto; destruct k; simpl; auto.
Qed.

(** When [load] raises, [do_training] ends there. *)
Lemma do_training_load_raises cfg epochs f s x :
  disk s TrainingMetaPath <> Absent ->
  fst (load TrainingMetaPath s) = Raise x ->
  let r := do_training cfg epochs f s in
  fst r = Raise x /\
  trace (snd r) = Log Info SavingModelInto :: trace s /\
  disk (snd r) = disk s.
Proof.
  intros Hd Hl r. subst r.
  unfold do_training, init_training_meta, log, bind, modify, get. simpl.
  set (s1 := with_training_meta _ (emit _ s)).
  destruct (load_reads_the_disk TrainingMetaPath s s1 eq_refl) as (L1 & L2).
  destruct (disk s TrainingMetaPath) eqn:E; try (exfalso; apply Hd; reflexivity);
    destruct (load TrainingMetaPath s1) as [res s2]; simpl in L1, L2; subst s2;
    rewrite L1, Hl; simpl; auto.
Qed.

(** X8.  A progress file that exists and cannot be loaded (an
    incomplete file, a document that is not an object, an object without
    one of the two keys, a directory) is fatal before the loop: the
    exception of [load] leaves [do_training], which has logged its first
    line and nothing else; the executor is not called, the terminal
    handling does not run and the disk is not touched. *)
Theorem unreadable_progress_is_fatal_before_training cfg epochs f s x :
  unreadable (disk s TrainingMetaPath) x ->
  let r := do_training cfg epochs f s in
  fst r = Raise x /\
  trace (snd r) = Log Info SavingModelInto :: trace s /\
  disk (snd r) = disk s.
Proof.
  intros U. apply do_training_load_raises.
  - intros E. rewrite E in U. exact U.
  - unfold load, bind, get, raise.
    destruct (disk s TrainingMetaPath) as [| |[| | | | |data]|]; simpl in U;
      try contradiction; try (rewrite U; reflexivity).
    destruct U as [(U1 & ->)|(U1 & U2 & ->)].
    + rewrite U1. reflexivity.
    + rewrite U2. destruct (member "training_iterations" data);
        [reflexivity | exfalso; apply U1; reflexivity].
Qed.

(** A progress file that [save] wrote is loaded back. *)
Lemma init_training_meta_loads cfg s m0 :
  disk s TrainingMetaPath = Json (to_json m0) ->
  exists s1,
    init_training_meta cfg s = (Ok tt, s1) /\
    training_iterations (training_meta s1) = training_iterations m0 /\
    disk s1 = disk s /\
    should_graceful_exit s1 = should_graceful_exit s /\
    train_calls (trace s1) = train_calls (trace s).
Proof.
  intros Hd. unfold init_training_meta, load, log, bind, modify, get, ret. simpl.
  rewrite Hd. simpl. rewrite ?Hd. simpl.
  match goal with |- context [path_ne ?a ?b] => destruct (path_ne a b) end;
    simpl; eexists; repeat split; reflexivity.
Qed.

(** X9.  Two runs in a row add up.  A first run without a progress file
    and a second run on the disk that the first one left, each ending
    with a successful final save, whatever failed in their loops: the
    second run returns, and its progress, in memory and in the progress
    file, is the steps of the epochs counted by the first run plus the
    steps of the epochs counted by the second. *)
Theorem two_runs_add_up cfg1 cfg2 epochs1 epochs2 d :
  d TrainingMetaPath = Absent ->
  let r1 := do_training cfg1 epochs1 NoFault (initial_state d cfg1) in
  let r2 := do_training cfg2 epochs2 NoFault (initial_state (disk (snd r1)) cfg2) in
  fst r1 <> Running ->
  fst r2 <> Running ->
  fst r2 = Ok tt /\
  training_iterations (training_meta (snd r2)) =
    num_epochs (snd r1) * train_epoch_steps cfg1
    + num_epochs (snd r2) * train_epoch_steps cfg2 /\
  disk (snd r2) TrainingMetaPath = Json (to_json (training_meta (snd r2))).
Proof.
  intros Hd r1 r2 N1 N2.
  assert (E1 : r1 = training_block cfg1 epochs1 NoFault
                      (with_training_meta (mkTrainingMetadata 0 (arg_tokenizer_index cfg1))
                         (emit (Log Info SavingModelInto) (initial_state d cfg1)))).
  { subst r1. unfold do_training, init_training_meta, log, bind, modify, get. simpl.
    rewrite Hd. reflexivity. }
  rewrite E1 in N1.
  destruct (training_block_progress cfg1 epochs1 _ N1)
    as (_ & _ & M1 & D1).
  rewrite <- E1 in M1, D1. simpl in M1.
  set (s2 := emit (Log Info SavingModelInto) (initial_state (disk (snd r1)) cfg2)).
  destruct (init_training_meta_loads cfg2 s2 (training_meta (snd r1)) D1)
    as (s3 & I & Ii & _).
  assert (E2 : r2 = training_block cfg2 epochs2 NoFault s3).
  { subst r2. unfold do_training, log, bind, modify. fold s2. simpl.
    change (init_training_meta cfg2 s2) with (init_training_meta cfg2 s2).
    rewrite I. reflexivity. }
  rewrite E2 in N2.
  destruct (training_block_progress cfg2 epochs2 _ N2)
    as (R2 & _ & M2 & D2).
  rewrite <- E2 in R2, M2, D2.
  split; [assumption|]. split; [|assumption].
  rewrite M2. simpl. rewrite Ii, M1. simpl. ring.
Qed.

(** X10.  When the signal is already set at the first check, or the
    target is 0, no epoch is executed; the terminal handling still
    writes the progress file, with the progress the block started with,
    and reports a summary of 0 epochs, after the line on the graceful
    shutdown when the signal is set. *)
Theorem no_epoch_when_stopped_or_target_zero cfg epochs si :
  should_graceful_exit si = true \/ target_epochs cfg = 0 ->
  let r := training_block cfg epochs NoFault si in
  fst r = Ok tt /\
  train_calls (trace (snd r)) = train_calls (trace si) /\
  num_epochs (snd r) = 0 /\
  training_meta (snd r) = training_meta si /\
  disk (snd r) TrainingMetaPath = Json (to_json (training_meta si)) /\
  trace (snd r) =
    Log Info ModelSavedInto
    :: Log Info (Summary 0 (train_epoch_steps cfg * 0)
                         (training_iterations (training_meta si)))
    :: Stored TrainingMetaPath (Json (to_json (training_meta si)))
    :: Stored TrainingMetaPath Partial
    :: (if should_graceful_exit si then [Log Info GracefullyShutDown] else [])
    ++ trace si.
Proof.
  intros H r. subst r.
  assert (C : loop_condition cfg (loop_start si) = false).
  { unfold loop_condition. simpl. destruct H as [->| ->]; simpl; auto.
    apply andb_false_r. }
  rewrite training_block_writable, while_loop_exit by assumption.
  unfold after_terminal_handling. simpl.
  destruct (should_graceful_exit si); simpl; repeat split; reflexivity.
Qed.

(** X11.  When the final save fails, its exception leaves
    [do_training]: the block raises [OSError] however the loop ended,
    and after the loop nothing is logged but the failure of the training
    (if it failed) and the graceful shutdown (if the signal is set): no
    summary.  The progress file is as the loop left it when the file
    could not be opened, and incomplete when the write was interrupted. *)
Theorem failing_final_save_is_raised cfg epochs f si :
  f <> NoFault ->
  let loop := while_loop cfg epochs (loop_start si) in
  let r := training_block cfg epochs f si in
  fst r <> Running ->
  fst r = Raise OSError /\
  num_epochs (snd r) = num_epochs (snd loop) /\
  training_meta (snd r) = training_meta (snd loop) /\
  disk (snd r) TrainingMetaPath =
    match f with
    | DumpFails => Partial
    | _ => disk (snd loop) TrainingMetaPath
    end /\
  exists stopping failing,
    (stopping = [] \/ stopping = [Log Info GracefullyShutDown]) /\
    (failing = [] \/ exists x, failing = [Log Error (FailedToTrain x)]) /\
    trace (snd r) =
      match f with
      | DumpFails => [Stored TrainingMetaPath Partial]
      | _ => []
      end ++ stopping ++ failing ++ trace (snd loop).
Proof.
  intros Hf loop r. subst r loop. rewrite training_block_unfold.
  destruct (while_loop cfg epochs (loop_start si)) as [[[]|x|] s']; simpl fst; simpl snd;
    intros NR; try (exfalso; apply NR; reflexivity);
    unfold terminal_handling, save, open_w, json_dump, log, bind, modify, get, ret, raise;
    simpl;
    destruct f; try (exfalso; apply Hf; reflexivity);
    destruct (should_graceful_exit s') eqn:G; simpl;
    (repeat split; try reflexivity);
    first
      [ exists [Log Info GracefullyShutDown], (@nil Event); simpl;
        split; [auto|]; split; [auto|]; reflexivity
      | exists (@nil Event), (@nil Event); simpl;
        split; [auto|]; split; [auto|]; reflexivity
      | exists [Log Info GracefullyShutDown], [Log Error (FailedToTrain x)]; simpl;
        split; [auto|]; split; [eauto|]; reflexivity
      | exists (@nil Event), [Log Error (FailedToTrain x)]; simpl;
        split; [auto|]; split; [eauto|]; reflexivity ].
Qed.

Lemma training_block_interrupted cfg epochs si :
  fst (training_block cfg epochs DumpFails si) <> Running ->
  disk (snd (training_block cfg epochs DumpFails si)) TrainingMetaPath = Partial.
Proof.
  rewrite training_block_unfold.
  destruct (while_loop cfg epochs (loop_start si)) as [[[]|x|] s']; simpl fst; simpl snd;
    intros NR; try (exfalso; apply NR; reflexivity);
    unfold terminal_handling, save, open_w, json_dump, log, bind, modify, get, ret, raise;
    simpl; destruct (should_graceful_exit s'); reflexivity.
Qed.

(** X12.  A final save that is interrupted in its write costs the whole
    record: the progress file is left incomplete, whatever the epochs
    had saved, and the next run on that disk raises [JSONDecodeError]
    before it trains at all, leaving the disk as it found it. *)
Theorem interrupted_final_save_blocks_the_next_run cfg epochs si cfg' epochs' f' :
  let r := training_block cfg epochs DumpFails si in
  let r' := do_training cfg' epochs' f' (initial_state (disk (snd r)) cfg') in
  fst r <> Running ->
  disk (snd r) TrainingMetaPath = Partial /\
  fst r' = Raise JSONDecodeError /\
  train_calls (trace (snd r')) = 0%nat /\
  disk (snd r') = disk (snd r).
Proof.
  intros r r' NR.
  pose proof (training_block_interrupted cfg epochs si NR) as Hd.
  fold r in Hd. split; [assumption|].
  destruct (do_training_load_raises cfg' epochs' f'
              (initial_state (disk (snd r)) cfg') JSONDecodeError) as (R & T & D).
  - simpl. rewrite Hd. discriminate.
  - unfold load, bind, get, raise. simpl. rewrite Hd. reflexivity.
  - fold r' in R, T, D. rewrite T, D. auto.
Qed.

(** X13.  When the save of an epoch (line 282) fails, the epoch is
    counted all the same: the counters were incremented before the save,
    the loop ends, the failure is logged, and the final save, if it
    succeeds, writes the count that includes the epoch. *)
Theorem failed_progress_save_is_recovered_at_exit cfg pre e post si s :
  while_loop cfg pre (loop_start si) = (Running, s) ->
  train_fault e = None ->
  progress_save_fault e <> NoFault ->
  let r := training_block cfg (pre ++ e :: post) NoFault si in
  fst r = Ok tt /\
  phase r = Failed /\
  num_epochs (snd r) = Z.of_nat (List.length pre) + 1 /\
  train_calls (trace (snd r)) = (train_calls (trace si) + List.length pre + 1)%nat /\
  training_iterations (training_meta (snd r)) =
    training_iterations (training_meta s) + train_epoch_steps cfg /\
  disk (snd r) TrainingMetaPath = Json (to_json (training_meta (snd r))).
Proof.
  intros Hpre Ht Hp r.
  destruct (while_loop_app cfg pre (e :: post) _ s Hpre) as (E & C & Hn & _ & Hc).
  simpl in Hn, Hc.
  destruct (epoch_body_always cfg e s) as (_ & Tc & _).
  destruct (epoch_body_counts cfg e s) as [(F & _)|(_ & En & Ei & _)];
    [congruence|].
  assert (X : fst (epoch_body cfg e s) = Raise OSError).
  { run_body. rewrite Ht. simpl.
    destruct (progress_save_fault e); try (exfalso; apply Hp; reflexivity); reflexivity. }
  destruct (epoch_body cfg e s) as [res s1] eqn:B. simpl in X, En, Ei, Tc. subst res.
  assert (R : r = (Ok tt, after_terminal_handling cfg
                            (emit (Log Error (FailedToTrain OSError)) s1))).
  { subst r. rewrite training_block_writable, E, while_loop_turn by assumption.
    rewrite B. reflexivity. }
  destruct (after_terminal_handling_frame cfg (emit (Log Error (FailedToTrain OSError)) s1))
    as (Td & _ & Tm & Tn & _ & Tk & _ & Tf).
  rewrite R. unfold phase. simpl fst. simpl snd.
  rewrite Td, Tm, Tn, Tk, Tf. simpl.
  rewrite En, Ei, Tc, Hn, Hc. repeat split; auto; lia.
Qed.

(** ** The console *)

Lemma console_reads_app a b s :
  console_reads (a ++ b) s = console_reads b (console_reads a s) \/
  console (console_reads a s) <> Reading /\
  console_reads (a ++ b) s = console_reads a s.
Proof.
  revert s; induction a as [|i a IH]; intros s; simpl; auto.
  destruct (console s) eqn:C; auto.
  - right. split; [congruence | reflexivity].
  - right. split; [congruence | reflexivity].
Qed.

Lemma console_reads_stopped inputs s :
  console s <> Reading -> console_reads inputs s = s.
Proof.
  intros H. destruct inputs; simpl; auto.
  destruct (console s); auto. exfalso; apply H; reflexivity.
Qed.

(** The lines that neither quit nor end the input leave the console
    reading and the signal as it is. *)
Lemma console_reads_other_lines inputs s :
  console s = Reading ->
  forallb (fun i => match i with
                    | Line _ => negb (asks_to_quit i)
                    | EndOfInput => false
                    end) inputs = true ->
  console (console_reads inputs s) = Reading /\
  should_graceful_exit (console_reads inputs s) = should_graceful_exit s.
Proof.
  revert s; induction inputs as [|i rest IH]; intros s Hc Hq; simpl in *; auto.
  apply andb_true_iff in Hq as (Hi & Hq). rewrite Hc.
  destruct i as [text|]; [|discriminate]. simpl in Hi.
  destruct (IH (console_turn (Line text) s)) as (I1 & I2); auto.
  - simpl. destruct (Str.eqb _ _); [discriminate|].
    destruct (Str.eqb _ _); simpl; assumption.
  - rewrite I1, I2. split; [reflexivity|]. simpl.
    destruct (Str.eqb _ _); [discriminate|].
    destruct (Str.eqb _ _); reflexivity.
Qed.

(** X14.  Once the input of the console ends before any [quit], the
    console thread is gone and the signal can no longer be set: whatever
    follows, [quit] included, is not read. *)
Theorem end_of_input_disables_quit pre post s :
  console s = Reading ->
  forallb (fun i => negb (asks_to_quit i)) pre = true ->
  let s' := console_reads (pre ++ EndOfInput :: post) s in
  should_graceful_exit s' = should_graceful_exit s /\
  console s' <> Reading /\
  s' = console_reads (pre ++ [EndOfInput]) s.
Proof.
  revert s; induction pre as [|i pre IH]; intros s Hc Hq; simpl in *.
  - rewrite Hc. simpl.
    rewrite console_reads_stopped by (simpl; discriminate). simpl.
    repeat split; auto. discriminate.
  - apply andb_true_iff in Hq as (Hi & Hq). rewrite Hc.
    destruct i as [text|].
    + simpl in Hi. destruct (IH (console_turn (Line text) s)) as (I1 & I2 & I3); auto.
      * simpl. destruct (Str.eqb _ _); [discriminate|].
        destruct (Str.eqb _ _); simpl; assumption.
      * rewrite I1. repeat split; auto. simpl.
        destruct (Str.eqb _ _); [discriminate|].
        destruct (Str.eqb _ _); reflexivity.
    + rewrite !console_reads_stopped by (simpl; discriminate). simpl.
      repeat split; auto. discriminate.
Qed.

(** X15.  The console ends with the first [quit]: after lines that are
    not [quit], a line that strips to [quit] sets the signal, logs the
    attempt and returns, and nothing that follows is read or logged. *)
Theorem console_stops_reading_after_quit pre text post s :
  console s = Reading ->
  forallb (fun i => match i with
                    | Line _ => negb (asks_to_quit i)
                    | EndOfInput => false
                    end) pre = true ->
  Str.strip text = Str.lit "quit" ->
  let s' := console_reads (pre ++ Line text :: post) s in
  s' = console_reads (pre ++ [Line text]) s /\
  should_graceful_exit s' = true /\
  console s' = Returned /\
  trace s' = Log Info AttemptingShutdown :: trace (console_reads pre s).
Proof.
  intros Hc Hq Ht s'. subst s'.
  destruct (console_reads_other_lines pre s Hc Hq) as (Rc & _).
  assert (Q : forall rest, console_reads (pre ++ Line text :: rest) s =
                           with_console Returned
                             (with_signal true
                                (emit (Log Info AttemptingShutdown) (console_reads pre s)))).
  { intros rest.
    destruct (console_reads_app pre (Line text :: rest) s) as [E|(N & _)];
      [|congruence].
    rewrite E. simpl. rewrite Rc, Ht. simpl.
    apply console_reads_stopped. simpl. discriminate. }
  rewrite !Q. simpl. auto.
Qed.

(** X16.  An empty line, or one of whitespace only, is reported as the
    unrecognized command [''] and changes nothing else. *)
Theorem blank_line_is_unrecognized text s :
  blank text ->
  console s = Reading ->
  console_reads [Line text] s = emit (Log Info (Unrecognized [])) s.
Proof.
  intros Hb Hc. simpl. rewrite Hc.
  unfold Str.strip, Str.rstrip. rewrite (lstrip_blank text Hb). reflexivity.
Qed.

Lemma lstrip_split (u : Str.str) :
  exists a, u = a ++ Str.lstrip u /\ blank a /\
            (forall c rest, Str.lstrip u = c :: rest -> Str.is_space c = false).
Proof.
  induction u as [|c u (a & E & Ba & Hf)]; simpl.
  - exists []. repeat split; [constructor | discriminate].
  - destruct (Str.is_space c) eqn:Sc.
    + exists (c :: a). simpl. rewrite <- E. repeat split; auto.
      constructor; assumption.
    + exists []. simpl. repeat split; [constructor|].
      intros c' rest' H; inversion H; subst; assumption.
Qed.

(** X17.  Every line is its stripped form between two runs of
    whitespace, and the stripped form neither starts nor ends with
    whitespace: stripping removes all the surrounding whitespace and
    nothing else. *)
Theorem strip_removes_only_surrounding_whitespace (u : Str.str) :
  exists a b,
    u = a ++ Str.strip u ++ b /\ blank a /\ blank b /\ trimmed (Str.strip u).
Proof.
  destruct (lstrip_split u) as (a & Ea & Ba & Fa).
  destruct (lstrip_split (rev (Str.lstrip u))) as (b' & Eb & Bb & Fb).
  exists a, (rev b'). unfold Str.strip, Str.rstrip.
  assert (E : Str.lstrip u = rev (Str.lstrip (rev (Str.lstrip u))) ++ rev b').
  { rewrite <- rev_app_distr, <- Eb, rev_involutive. reflexivity. }
  split; [rewrite <- E; assumption|].
  split; [assumption|]. split; [apply Forall_rev; assumption|].
  split.
  - intros c rest H. rewrite H in E. simpl in E. exact (Fa c _ E).
  - intros c init H. apply (Fb c (rev init)).
    rewrite <- (rev_involutive (Str.lstrip (rev (Str.lstrip u)))), H, rev_app_distr.
    reflexivity.
Qed.

(** ** Checkpoints on the disk *)

(** What a turn that ends normally leaves on the disk. *)
Lemma epoch_body_disk cfg e s s' :
  epoch_body cfg e s = (Ok tt, s') ->
  let iters := training_iterations (training_meta s') in
  let due := shouldCheckpoint (num_epochs_since_checkpoint s + 1)
                              (checkpoint_every_epochs cfg) in
  forall l,
    disk s' l =
    match l with
    | TrainingMetaPath => Json (to_json (training_meta s'))
    | CheckpointDir i => if due && (iters =? i) then ModelDir else disk s l
    | CheckpointMetaPath i =>
        if due && (iters =? i) then Json (to_json (training_meta s')) else disk s l
    end.
Proof.
  destruct (after_train_frame e s) as (Fd & Fm & Fn & Fc).
  run_body. fold (after_train e s).
  destruct (train_fault e); [discriminate|].
  destruct (progress_save_fault e); simpl; try discriminate.
  rewrite Fc.
  destruct (shouldCheckpoint _ _) eqn:Hdue; simpl.
  - destruct (model_save_fault e); simpl; [discriminate|].
    destruct (checkpoint_save_fault e); simpl; try discriminate.
    intros H; inversion H; subst s'; clear H; simpl.
    intros l. unfold disk_put. rewrite Fd, Fm.
    destruct l; simpl; auto;
      destruct (_ =? _); reflexivity.
  - intros H; inversion H; subst s'; clear H; simpl.
    intros l. unfold disk_put. rewrite Fd. destruct l; reflexivity.
Qed.

(** X18.  When no write fails, every checkpoint produced by the loop is
    on the disk when the loop ends: its directory holds a model
    snapshot, and the copy of the progress file in it records the
    iteration count that names the directory, with the tokenizer index
    of the run. *)
Theorem checkpoints_on_disk_match_their_names cfg epochs s0 :
  Forall no_write_fault epochs ->
  checkpoints (trace s0) = [] ->
  let s := snd (while_loop cfg epochs s0) in
  forall n i, In (n, i) (checkpoints (trace s)) ->
    disk s (CheckpointDir i) = ModelDir /\
    disk s (CheckpointMetaPath i) =
      Json (to_json (mkTrainingMetadata i (tokenizer_index (training_meta s0)))).
Proof.
  intros Hw H0.
  set (tok := tokenizer_index (training_meta s0)).
  set (Inv := fun s : State =>
    tokenizer_index (training_meta s) = tok /\
    forall n i, In (n, i) (checkpoints (trace s)) ->
      disk s (CheckpointDir i) = ModelDir /\
      disk s (CheckpointMetaPath i) = Json (to_json (mkTrainingMetadata i tok))).
  assert (I0 : Inv s0).
  { split; [reflexivity|]. rewrite H0. intros n i []. }
  clearbody tok. clear H0.
  assert (G : Inv (snd (while_loop cfg epochs s0))).
  { revert s0 I0; induction Hw as [|e rest He _ IH]; intros s0 I0.
    - simpl. destruct (loop_condition cfg s0); assumption.
    - destruct (loop_condition cfg s0) eqn:C.
      2:{ rewrite while_loop_exit by assumption. assumption. }
      rewrite while_loop_turn by assumption.
      destruct (epoch_body_always cfg e s0) as (NR & _).
      destruct (epoch_body cfg e s0) as [[[]|x|] s1] eqn:B; simpl.
      + apply IH.
        destruct (epoch_body_returns _ _ _ _ B)
          as (_ & _ & _ & _ & Ek & _ & _ & _ & _ & _ & Ec & _).
        pose proof (epoch_body_disk _ _ _ _ B) as Ed. cbv zeta in Ed, Ec.
        destruct I0 as (It & Ic). split; [congruence|].
        intros n i Hin. rewrite (Ed (CheckpointDir i)), (Ed (CheckpointMetaPath i)).
        assert (M : training_meta s1 =
                    mkTrainingMetadata (training_iterations (training_meta s1)) tok).
        { destruct (training_meta s1); simpl in *. congruence. }
        destruct (shouldCheckpoint _ _); simpl.
        * destruct (Z.eqb_spec (training_iterations (training_meta s1)) i) as [E|E].
          -- split; [reflexivity|]. rewrite M. simpl. rewrite E. reflexivity.
          -- rewrite Ec in Hin. destruct Hin as [Hin|Hin].
             ++ inversion Hin. congruence.
             ++ apply (Ic n i Hin).
        * rewrite Ec in Hin. apply (Ic n i Hin).
      + destruct (epoch_body_raises _ _ _ _ _ He B) as (_ & ->).
        destruct (after_train_frame e s0) as (Fd & Fm & _).
        destruct (after_train_trace e s0) as (logs & Ft & Fl).
        destruct (from_console_observations logs (Train :: trace s0) Fl)
          as (_ & _ & Oc & _).
        destruct I0 as (It & Ic). split; [rewrite Fm; assumption|].
        intros n i. rewrite Ft, Oc, Fd. simpl. apply Ic.
      + exfalso; apply NR; reflexivity. }
  intros s n i. apply G.
Qed.

(** X19.  When no write fails, in a loop started with both counters at
    0, the checkpoint taken in epoch [n] is named by the iteration count
    the run started with plus [n] times the step count, and [n] is one
    of the epochs counted. *)
Theorem checkpoint_names_count_the_iterations cfg epochs s0 :
  Forall no_write_fault epochs ->
  num_epochs s0 = 0 ->
  num_epochs_since_checkpoint s0 = 0 ->
  checkpoints (trace s0) = [] ->
  let s := snd (while_loop cfg epochs s0) in
  forall n i, In (n, i) (checkpoints (trace s)) ->
    1 <= n <= num_epochs s /\
    i = training_iterations (training_meta s0) + n * train_epoch_steps cfg.
Proof.
  intros Hw Hn Hs Ht s n i Hin.
  pose proof (while_loop_keeps_invariant cfg _ epochs s0 Hw
                (fresh_loop_invariant cfg s0 Hn Hs Ht)) as (In' & _ & _ & Ic).
  fold s in In', Ic. rewrite Ic in Hin.
  apply in_map_iff in Hin as (k & E & Hk). inversion E; subst.
  apply filter_In in Hk as (Hk & _).
  apply in_countdown in Hk; auto.
Qed.

Lemma while_loop_running_logs_no_failure cfg pre s0 s :
  while_loop cfg pre s0 = (Running, s) ->
  failure_logged (trace s) = failure_logged (trace s0).
Proof.
  revert s0; induction pre as [|e pre IH]; intros s0 H.
  - simpl in H. destruct (loop_condition cfg s0); inversion H; reflexivity.
  - destruct (loop_condition cfg s0) eqn:C.
    2:{ rewrite while_loop_exit in H by assumption. discriminate. }
    rewrite while_loop_turn in H by assumption.
    destruct (epoch_body cfg e s0) as [[[]|x|] s1] eqn:B; try discriminate.
    + destruct (epoch_body_returns _ _ _ _ B)
        as (_ & _ & _ & _ & _ & _ & _ & _ & _ & _ & _ & Ef).
      rewrite (IH _ H). assumption.
    + destruct (epoch_body_always cfg e s0) as (NR & _).
      rewrite B in NR. exfalso; apply NR; reflexivity.
Qed.

(** X20.  A graceful stop from start to end.  In a run without a
    progress file, let the loop have run the epochs of [pre] and let the
    operator ask to quit during the next epoch [k], in which nothing
    fails.  [do_training] returns after exactly [k] calls of the
    executor, in the [Stopping] phase; the progress is [k] times the
    step count; and after the loop there is the line on the graceful
    shutdown, one more save of the progress file, the summary and the
    closing message. *)
Theorem graceful_stop_end_to_end cfg pre e post d s :
  d TrainingMetaPath = Absent ->
  while_loop cfg pre (fresh_start d cfg) = (Running, s) ->
  should_graceful_exit (console_reads (operator_input e) s) = true ->
  train_fault e = None ->
  no_write_fault e ->
  let k := Z.of_nat (List.length pre) + 1 in
  let total := k * train_epoch_steps cfg in
  let progress := mkTrainingMetadata total (arg_tokenizer_index cfg) in
  let r := do_training cfg (pre ++ e :: post) NoFault (initial_state d cfg) in
  fst r = Ok tt /\
  phase r = Stopping /\
  train_calls (trace (snd r)) = S (List.length pre) /\
  num_epochs (snd r) = k /\
  training_meta (snd r) = progress /\
  disk (snd r) TrainingMetaPath = Json (to_json progress) /\
  exists loop_events,
    trace (snd r) =
      Log Info ModelSavedInto
      :: Log Info (Summary k (train_epoch_steps cfg * k) total)
      :: Stored TrainingMetaPath (Json (to_json progress))
      :: Stored TrainingMetaPath Partial
      :: Log Info GracefullyShutDown
      :: loop_events /\
    train_calls loop_events = S (List.length pre).
Proof.
  intros Hd Hpre Hquit Ht (Hp & Hm & Hc) k total progress r.
  destruct (while_loop_app cfg pre (e :: post) _ s Hpre) as (E & C & Hn & Hi & Hk).
  pose proof (while_loop_running_logs_no_failure _ _ _ _ Hpre) as Hf.
  simpl in Hn, Hi, Hk, Hf.
  assert (B : exists s1, epoch_body cfg e s = (Ok tt, s1)).
  { unfold epoch_body, model_train, model_save, save, open_w, json_dump, log,
           bind, modify, get, ret, raise; simpl.
    rewrite Ht, Hp, Hm, Hc. simpl.
    destruct (shouldCheckpoint _ _); simpl; eexists; reflexivity. }
  destruct B as (s1 & B).
  destruct (epoch_body_returns _ _ _ _ B)
    as (_ & _ & En & Ei & Ek & _ & Es & _ & Ec & _ & _ & Ef).
  pose proof (while_loop_progress cfg pre (fresh_start d cfg)) as CS.
  cbv zeta in CS. rewrite Hpre in CS. simpl in CS. destruct CS as (_ & _ & CT).
  assert (M : training_meta s1 = progress).
  { subst progress total k. destruct (training_meta s1) as [a b].
    simpl in Ei, Ek. rewrite Ei, Ek, Hi, CT. f_equal. ring. }
  assert (R : r = (Ok tt, after_terminal_handling cfg s1)).
  { subst r. rewrite (do_training_fresh cfg _ d Hd), E, while_loop_turn, B by assumption.
    rewrite while_loop_exit; [reflexivity|].
    unfold loop_condition. rewrite Es, Hquit. reflexivity. }
  assert (G : should_graceful_exit s1 = true) by congruence.
  rewrite R. unfold phase, after_terminal_handling. simpl.
  rewrite G. simpl. rewrite ?G, Ef, Hf, Ec, Hk, M, En, Hn. simpl.
  repeat split; try reflexivity.
  eexists. split; [reflexivity|]. rewrite Ec, Hk. reflexivity.
Qed.

(** X21.  For every target [n >= 0], positive cadence [c] and step
    count, a run without a progress file in which nothing fails and the
    operator does not ask to quit returns after [n] calls of the
    executor, [Completed], with [n] times the step count on record and
    one checkpoint for every multiple of [c] up to [n], named by the
    iteration count reached then. *)
Theorem quiet_run_completes cfg d epochs :
  d TrainingMetaPath = Absent ->
  0 <= target_epochs cfg ->
  0 < checkpoint_every_epochs cfg ->
  Forall quiet epochs ->
  (Z.to_nat (target_epochs cfg) <= List.length epochs)%nat ->
  let n := target_epochs cfg in
  let c := checkpoint_every_epochs cfg in
  let r := do_training cfg epochs NoFault (initial_state d cfg) in
  fst r = Ok tt /\
  phase r = Completed /\
  train_calls (trace (snd r)) = Z.to_nat n /\
  num_epochs (snd r) = n /\
  training_meta (snd r) =
    mkTrainingMetadata (n * train_epoch_steps cfg) (arg_tokenizer_index cfg) /\
  disk (snd r) TrainingMetaPath = Json (to_json (training_meta (snd r))) /\
  checkpoints (trace (snd r)) =
    map (fun k => (k, k * train_epoch_steps cfg))
        (filter (fun k => k mod c =? 0) (countdown n)).
Proof.
  intros Hd Ht Hc Hq Hlen n c r.
  set (s0 := fresh_start d cfg).
  destruct (while_loop_reaches_target cfg epochs s0) as
    (s' & W & Wn & Ws & Wk & Wc & Wf & _); auto;
    try (simpl; rewrite Z.sub_0_r; assumption).
  pose proof (while_loop_keeps_invariant cfg 0 epochs s0
                (quiet_no_write_fault _ Hq)) as Inv.
  rewrite W in Inv. simpl in Inv.
  destruct Inv as (_ & _ & Ii & Ic).
  { unfold cadence_invariant, since_of; simpl.
    destruct (0 <? checkpoint_every_epochs cfg); repeat split; auto; lia. }
  rewrite Wn in Ii, Ic. simpl in Ii, Wk, Wc, Wf. rewrite Z.sub_0_r in Wc.
  assert (M : training_meta s' =
              mkTrainingMetadata (n * train_epoch_steps cfg) (arg_tokenizer_index cfg)).
  { destruct (training_meta s'); simpl in *. subst. reflexivity. }
  assert (R : r = (Ok tt, after_terminal_handling cfg s')).
  { subst r. rewrite (do_training_fresh cfg epochs d Hd). fold s0. rewrite W.
    reflexivity. }
  destruct (after_terminal_handling_frame cfg s')
    as (Td & _ & Tm & Tn & Ts & Tc & Tk & Tf).
  rewrite R. unfold phase. simpl fst. simpl snd.
  rewrite Td, Tm, Tn, Ts, Tc, Tk, Tf, Wf, Ws, Wc, Ic, Wn, M.
  repeat split; try reflexivity.
  rewrite (filter_ext (due (checkpoint_every_epochs cfg)) (fun k => k mod c =? 0)).
  - apply map_ext. intros k. reflexivity.
  - intros k. unfold due. fold c.
    replace (0 <? c) with true by (symmetry; apply Z.ltb_lt; assumption). reflexivity.
Qed.

End Further.

(** * The further properties on concrete runs *)

(** X3 after two epochs of a run without a limit. *)
Lemma progress_file_is_current_at_every_check_witness :
  let s := snd (while_loop unbounded [quiet_epoch; quiet_epoch]
                  (fresh_start empty_disk unbounded)) in
  disk s TrainingMetaPath = Json (to_json (mkTrainingMetadata 200 tok)).
Proof.
  pose proof (progress_file_is_current_at_every_check unbounded
                [quiet_epoch; quiet_epoch] (fresh_start empty_disk unbounded)
                ltac:(intros x; vm_compute; discriminate)) as (H & _).
  specialize (H ltac:(vm_compute; reflexivity)).
  vm_compute in H |- *. exact H.
Defined.

(** X4 on a target of three epochs when five are possible. *)
Lemma never_more_epochs_than_the_target_witness :
  let r := while_loop three_epochs (repeat quiet_epoch 5)
             (fresh_start empty_disk three_epochs) in
  num_epochs (snd r) <= 3.
Proof.
  pose proof (never_more_epochs_than_the_target three_epochs (repeat quiet_epoch 5)
                (fresh_start empty_disk three_epochs)
                ltac:(vm_compute; discriminate)
                ltac:(vm_compute; discriminate)) as (H & _).
  exact H.
Defined.

(** X5 on a run that returns at its target. *)
Lemma loop_returns_only_when_due_witness :
  let r := while_loop three_epochs (repeat quiet_epoch 5)
             (fresh_start empty_disk three_epochs) in
  should_graceful_exit (snd r) = true \/ 0 <= 3 <= num_epochs (snd r).
Proof.
  exact (loop_returns_only_when_due three_epochs (repeat quiet_epoch 5)
           (fresh_start empty_disk three_epochs)
           ltac:(vm_compute; reflexivity)).
Defined.

(** X6 on four epochs without a limit. *)
Lemma unbounded_run_keeps_running_witness :
  fst (while_loop unbounded (repeat quiet_epoch 4)
         (fresh_start empty_disk unbounded)) = Running.
Proof.
  pose proof (unbounded_run_keeps_running unbounded (repeat quiet_epoch 4)
                (fresh_start empty_disk unbounded)
                ltac:(vm_compute; reflexivity)
                ltac:(repeat constructor)
                ltac:(vm_compute; reflexivity)) as (H & _).
  exact H.
Defined.

(** X7 when the executor raises in the second epoch. *)
Lemma training_block_persists_what_it_counted_witness :
  let r := training_block three_epochs [quiet_epoch; failing_executor] NoFault
             (initial_state empty_disk three_epochs) in
  training_meta (snd r) = mkTrainingMetadata 100 tok /\
  disk (snd r) TrainingMetaPath = Json (to_json (mkTrainingMetadata 100 tok)).
Proof.
  pose proof (training_block_persists_what_it_counted three_epochs
                [quiet_epoch; failing_executor]
                (initial_state empty_disk three_epochs)
                ltac:(vm_compute; discriminate)) as (_ & _ & Hm & Hd & _).
  vm_compute in Hm, Hd |- *. split; [exact Hm | exact Hd].
Defined.

(** X8 on an incomplete progress file. *)
Lemma unreadable_progress_is_fatal_before_training_witness :
  let r := do_training unbounded (repeat quiet_epoch 3) NoFault
             (initial_state incomplete_disk unbounded) in
  fst r = Raise JSONDecodeError /\ trace (snd r) = [Log Info SavingModelInto].
Proof.
  pose proof (unreadable_progress_is_fatal_before_training unbounded
                (repeat quiet_epoch 3) NoFault
                (initial_state incomplete_disk unbounded) JSONDecodeError
                ltac:(vm_compute; reflexivity)) as (Hr & Ht & _).
  split; [exact Hr | exact Ht].
Defined.

(** X9: three epochs, then seven more. *)
Lemma two_runs_add_up_witness :
  let r1 := do_training three_epochs (repeat quiet_epoch 3) NoFault
              (initial_state empty_disk three_epochs) in
  let r2 := do_training seven_epochs (repeat quiet_epoch 7) NoFault
              (initial_state (disk (snd r1)) seven_epochs) in
  training_iterations (training_meta (snd r2)) = 1000.
Proof.
  pose proof (two_runs_add_up three_epochs seven_epochs
                (repeat quiet_epoch 3) (repeat quiet_epoch 7) empty_disk
                ltac:(vm_compute; reflexivity)
                ltac:(vm_compute; discriminate)
                ltac:(vm_compute; discriminate)) as (_ & H & _).
  vm_compute in H |- *. exact H.
Defined.

(** X10 when the operator asked to quit before the first check. *)
Lemma no_epoch_when_stopped_or_target_zero_witness :
  let r := training_block unbounded (repeat quiet_epoch 3) NoFault
             (with_signal true (initial_state empty_disk unbounded)) in
  train_calls (trace (snd r)) = 0%nat /\
  disk (snd r) TrainingMetaPath = Json (to_json (mkTrainingMetadata 0 tok)).
Proof.
  pose proof (no_epoch_when_stopped_or_target_zero unbounded (repeat quiet_epoch 3)
                (with_signal true (initial_state empty_disk unbounded))
                ltac:(left; vm_compute; reflexivity)) as (_ & Hc & _ & _ & Hd & _).
  split; [exact Hc | exact Hd].
Defined.

(** X11 when the progress file cannot be opened at exit. *)
Lemma failing_final_save_is_raised_witness :
  let r := training_block three_epochs (repeat quiet_epoch 3) OpenFails
             (initial_state empty_disk three_epochs) in
  fst r = Raise OSError /\
  disk (snd r) TrainingMetaPath = Json (to_json (mkTrainingMetadata 300 tok)).
Proof.
  pose proof (failing_final_save_is_raised three_epochs (repeat quiet_epoch 3) OpenFails
                (initial_state empty_disk three_epochs)
                ltac:(discriminate)
                ltac:(vm_compute; discriminate)) as (Hr & _ & _ & Hd & _).
  vm_compute in Hr, Hd |- *. split; [exact Hr | exact Hd].
Defined.

(** X12 after three epochs that were all saved. *)
Lemma interrupted_final_save_blocks_the_next_run_witness :
  let r := training_block three_epochs (repeat quiet_epoch 3) DumpFails
             (initial_state empty_disk three_epochs) in
  let r' := do_training three_epochs (repeat quiet_epoch 3) NoFault
              (initial_state (disk (snd r)) three_epochs) in
  disk (snd r) TrainingMetaPath = Partial /\ fst r' = Raise JSONDecodeError.
Proof.
  pose proof (interrupted_final_save_blocks_the_next_run three_epochs
                (repeat quiet_epoch 3) (initial_state empty_disk three_epochs)
                three_epochs (repeat quiet_epoch 3) NoFault
                ltac:(vm_compute; discriminate)) as (Hd & Hr & _).
  split; [exact Hd | exact Hr].
Defined.

(** X13 when the save of the second epoch is interrupted. *)
Lemma failed_progress_save_is_recovered_at_exit_witness :
  let r := training_block three_epochs ([quiet_epoch] ++ failing_progress_save :: [])
             NoFault (initial_state empty_disk three_epochs) in
  num_epochs (snd r) = 2 /\
  disk (snd r) TrainingMetaPath = Json (to_json (mkTrainingMetadata 200 tok)).
Proof.
  pose proof (failed_progress_save_is_recovered_at_exit three_epochs
                [quiet_epoch] failing_progress_save []
                (initial_state empty_disk three_epochs)
                (snd (while_loop three_epochs [quiet_epoch]
                        (loop_start (initial_state empty_disk three_epochs))))
                ltac:(vm_compute; reflexivity)
                ltac:(vm_compute; reflexivity)
                ltac:(vm_compute; discriminate)) as (_ & _ & Hn & _ & _ & Hd).
  vm_compute in Hn, Hd |- *. split; [exact Hn | exact Hd].
Defined.

(** X14: [help], the end of the input, then [quit]. *)
Lemma end_of_input_disables_quit_witness :
  should_graceful_exit
    (console_reads ([Line (Str.lit "help")] ++ EndOfInput :: [Line (Str.lit "quit")])
       (initial_state empty_disk unbounded)) = false.
Proof.
  pose proof (end_of_input_disables_quit [Line (Str.lit "help")] [Line (Str.lit "quit")]
                (initial_state empty_disk unbounded)
                ltac:(vm_compute; reflexivity)
                ltac:(vm_compute; reflexivity)) as (H & _).
  exact H.
Defined.

(** X15: [help], [quit] between blanks, then [help] again. *)
Lemma console_stops_reading_after_quit_witness :
  let s := console_reads
             ([Line (Str.lit "help")] ++ Line (Str.lit "  quit  ") :: [Line (Str.lit "help")])
             (initial_state empty_disk unbounded) in
  console s = Returned /\
  trace s = [Log Info AttemptingShutdown; Log Info HelpQuit; Log Info HelpHeader].
Proof.
  pose proof (console_stops_reading_after_quit [Line (Str.lit "help")]
                (Str.lit "  quit  ") [Line (Str.lit "help")]
                (initial_state empty_disk unbounded)
                ltac:(vm_compute; reflexivity)
                ltac:(vm_compute; reflexivity)
                ltac:(vm_compute; reflexivity)) as (_ & _ & Hc & Ht).
  vm_compute in Hc, Ht |- *. split; [exact Hc | exact Ht].
Defined.

(** X16 on a line of three spaces. *)
Lemma blank_line_is_unrecognized_witness :
  trace (console_reads [Line (Str.lit "   ")] (initial_state empty_disk unbounded)) =
  [Log Info (Unrecognized [])].
Proof.
  pose proof (blank_line_is_unrecognized (Str.lit "   ")
                (initial_state empty_disk unbounded)
                ltac:(repeat constructor)
                ltac:(vm_compute; reflexivity)) as H.
  rewrite H. reflexivity.
Defined.

(** X18 on seven epochs with a cadence of 3. *)
Lemma checkpoints_on_disk_match_their_names_witness :
  let s := snd (while_loop seven_epochs (repeat quiet_epoch 7)
                  (fresh_start empty_disk seven_epochs)) in
  disk s (CheckpointDir 600) = ModelDir /\
  disk s (CheckpointMetaPath 600) = Json (to_json (mkTrainingMetadata 600 tok)).
Proof.
  exact (checkpoints_on_disk_match_their_names seven_epochs (repeat quiet_epoch 7)
           (fresh_start empty_disk seven_epochs)
           ltac:(repeat constructor)
           ltac:(vm_compute; reflexivity)
           6 600
           ltac:(vm_compute; left; reflexivity)).
Defined.

(** X19 on seven epochs with a cadence of 3. *)
Lemma checkpoint_names_count_the_iterations_witness :
  let s := snd (while_loop seven_epochs (repeat quiet_epoch 7)
                  (fresh_start empty_disk seven_epochs)) in
  1 <= 3 <= num_epochs s /\ 300 = 0 + 3 * 100.
Proof.
  exact (checkpoint_names_count_the_iterations seven_epochs (repeat quiet_epoch 7)
           (fresh_start empty_disk seven_epochs)
           ltac:(repeat constructor)
           ltac:(vm_compute; reflexivity)
           ltac:(vm_compute; reflexivity)
           ltac:(vm_compute; reflexivity)
           3 300
           ltac:(vm_compute; right; left; reflexivity)).
Defined.

(** X20: [quit] during the third epoch of a run without a limit. *)
Lemma graceful_stop_end_to_end_witness :
  let r := do_training unbounded
             ([quiet_epoch; quiet_epoch] ++ quit_epoch :: [quiet_epoch]) NoFault
             (initial_state empty_disk unbounded) in
  phase r = Stopping /\
  training_meta (snd r) = mkTrainingMetadata 300 tok.
Proof.
  pose proof (graceful_stop_end_to_end unbounded [quiet_epoch; quiet_epoch]
                quit_epoch [quiet_epoch] empty_disk
                (snd (while_loop unbounded [quiet_epoch; quiet_epoch]
                        (fresh_start empty_disk unbounded)))
                ltac:(vm_compute; reflexivity)
                ltac:(vm_compute; reflexivity)
                ltac:(vm_compute; reflexivity)
                ltac:(vm_compute; reflexivity)
                ltac:(repeat split))
    as (_ & Hp & _ & _ & Hm & _).
  vm_compute in Hp, Hm |- *. split; [exact Hp | exact Hm].
Defined.

(** X21 on seven epochs with a cadence of 3. *)
Lemma quiet_run_completes_witness :
  let r := do_training seven_epochs (repeat quiet_epoch 7) NoFault
             (initial_state empty_disk seven_epochs) in
  phase r = Completed /\ checkpoints (trace (snd r)) = [(6, 600); (3, 300)].
Proof.
  pose proof (quiet_run_completes seven_epochs empty_disk (repeat quiet_epoch 7)
                ltac:(vm_compute; reflexivity)
                ltac:(vm_compute; discriminate)
                ltac:(vm_compute; reflexivity)
                ltac:(repeat constructor)
                ltac:(vm_compute; lia)) as (_ & Hp & _ & _ & _ & _ & Hc).
  vm_compute in Hp, Hc |- *. split; [exact Hp | exact Hc].
Defined.
